(** * now-client: the request pipeline, parameter checks and construction

    A shallow embedding of [src/index.js]: the [ERROR] table, [_getToken],
    the [Now] constructor, [handleCallback], [handleError], [handleRequest]
    and the endpoint methods, over a small model of the JavaScript values the
    client inspects (truthiness, [typeof], property reads, string
    conversion), of promise settlement and of the injected transport. *)

From Stdlib Require Import Bool List String Ascii ZArith Lia.
From Stdlib Require Import DecimalString.
Import ListNotations.

Set Warnings "-register-all".

Local Open Scope list_scope.
Local Open Scope string_scope.

(** ** JavaScript values *)

Module JS.

(** Data values: what JSON decoding, object literals and thrown errors
    produce.  Numbers are the integers (exact for the safe integers);
    objects are records of own data properties in insertion order, the first
    binding of a key being the live one; [VErr] is an [Error] instance with
    what its [name] and [message] read as, and its further own properties.
    Functions are kept apart ([arg] below): no data value contains one. *)
Inductive value : Type :=
| VUndefined
| VNull
| VBool (b : bool)
| VNum (n : Z)
| VStr (s : string)
| VArr (elems : list value)
| VObj (props : list (string * value))
| VErr (name message : string) (props : list (string * value)).

(** An actual argument of a method: a data value or a function, the
    latter known by its identity. *)
Inductive arg : Type :=
| AVal (v : value)
| AFun (f : nat).

(** Evaluation of an expression: a value, or an exception. *)
Inductive result (A : Type) : Type :=
| Ok (a : A)
| Throw (e : value).
Arguments Ok {A} a.
Arguments Throw {A} e.

(** ToBoolean. *)
Definition truthy (v : value) : bool :=
  match v with
  | VUndefined | VNull => false
  | VBool b => b
  | VNum n => negb (n =? 0)%Z
  | VStr s => negb (s =? "")
  | VArr _ | VObj _ | VErr _ _ _ => true
  end.

Definition truthy_arg (a : arg) : bool :=
  match a with
  | AVal v => truthy v
  | AFun _ => true
  end.

(** The [typeof] operator. *)
Definition typeof (v : value) : string :=
  match v with
  | VUndefined => "undefined"
  | VNull => "object"
  | VBool _ => "boolean"
  | VNum _ => "number"
  | VStr _ => "string"
  | VArr _ | VObj _ | VErr _ _ _ => "object"
  end.

Definition typeof_arg (a : arg) : string :=
  match a with
  | AVal v => typeof v
  | AFun _ => "function"
  end.

(** Own property lookup in a property list. *)
Fixpoint lookup (k : string) (props : list (string * value)) : option value :=
  match props with
  | [] => None
  | (k', v) :: rest => if k' =? k then Some v else lookup k rest
  end.

Definition has_own (k : string) (props : list (string * value)) : bool :=
  match lookup k props with Some _ => true | None => false end.

(** The array index a property key denotes, when it is the canonical
    decimal numeral of one. *)
Definition index_of_key (k : string) : option nat :=
  match NilZero.uint_of_string k with
  | Some u =>
      let n := Nat.of_uint u in
      if NilZero.string_of_uint (Nat.to_uint n) =? k then Some n else None
  | None => None
  end.

Definition decimal (n : Z) : string := NilZero.string_of_int (Z.to_int n).

(** The [TypeError] of a property read on [undefined] or [null].  The
    wording of the message is the engine's; no theorem rests on it, the
    evaluated examples show it. *)
Definition cannot_read (v : value) (k : string) : value :=
  VErr "TypeError"
       ("Cannot read property '" ++ k ++ "' of "
        ++ match v with VNull => "null" | _ => "undefined" end) [].

Definition type_error (msg : string) : value := VErr "TypeError" msg [].

(** Property read [v[k]] (also [v.k]): the own properties of the value.
    Of what the built-in prototypes add, the model has the data a key of
    the client can meet: [name] and [message] of an error, [length] and the
    indices of a string or an array.  Inherited methods ([toString],
    [constructor], ...) are not values here; the one the client calls is
    [call_toString] below.  The keys the client reads ([data], [err],
    [name], [isExternalDNS], [token] and its selectors) name none of
    them. *)
Definition get (v : value) (k : string) : result value :=
  match v with
  | VUndefined | VNull => Throw (cannot_read v k)
  | VBool _ | VNum _ => Ok VUndefined
  | VStr s =>
      if k =? "length" then Ok (VNum (Z.of_nat (String.length s)))
      else match index_of_key k with
           | Some i =>
               if (i <? String.length s)%nat then Ok (VStr (substring i 1 s))
               else Ok VUndefined
           | None => Ok VUndefined
           end
  | VArr l =>
      if k =? "length" then Ok (VNum (Z.of_nat (List.length l)))
      else match index_of_key k with
           | Some i => Ok (nth i l VUndefined)
           | None => Ok VUndefined
           end
  | VObj props =>
      match lookup k props with
      | Some x => Ok x
      | None => Ok VUndefined
      end
  | VErr name message props =>
      if k =? "name" then Ok (VStr name)
      else if k =? "message" then Ok (VStr message)
      else match lookup k props with
           | Some x => Ok x
           | None => Ok VUndefined
           end
  end.

(** Whether [v] has a property under the key [k], in the sense of [get]. *)
Definition has_property (v : value) (k : string) : bool :=
  match v with
  | VUndefined | VNull | VBool _ | VNum _ => false
  | VStr s =>
      (k =? "length")
      || match index_of_key k with
         | Some i => (i <? String.length s)%nat
         | None => false
         end
  | VArr l =>
      (k =? "length")
      || match index_of_key k with
         | Some i => (i <? List.length l)%nat
         | None => false
         end
  | VObj props => has_own k props
  | VErr _ _ props => (k =? "name") || (k =? "message") || has_own k props
  end.

(** [Error.prototype.toString]. *)
Definition error_string (name message : string) : string :=
  if name =? "" then message
  else if message =? "" then name
  else name ++ ": " ++ message.

Fixpoint join (sep : string) (parts : list string) : string :=
  match parts with
  | [] => ""
  | [p] => p
  | p :: rest => p ++ sep ++ join sep rest
  end.

Fixpoint sequence {A : Type} (l : list (option A)) : option (list A) :=
  match l with
  | [] => Some []
  | None :: _ => None
  | Some a :: rest =>
      match sequence rest with
      | Some r => Some (a :: r)
      | None => None
      end
  end.

(** String conversion, [None] when it raises a [TypeError].  It serves
    the conversion of a template literal [`${v}`] and, on a value other
    than [undefined] and [null], the method call [v.toString()].  An own
    data property [toString] shadows the inherited method and is not
    callable, so both raise; the elements of an array are converted in
    turn, [undefined] and [null] elements giving the empty string. *)
Fixpoint to_string (v : value) : option string :=
  match v with
  | VUndefined => Some "undefined"
  | VNull => Some "null"
  | VBool true => Some "true"
  | VBool false => Some "false"
  | VNum n => Some (decimal n)
  | VStr s => Some s
  | VArr l =>
      match sequence (map (fun x => match x with
                                    | VUndefined | VNull => Some ""
                                    | _ => to_string x
                                    end) l) with
      | Some parts => Some (join "," parts)
      | None => None
      end
  | VObj props =>
      if has_own "toString" props then None else Some "[object Object]"
  | VErr name message props =>
      if has_own "toString" props then None
      else Some (error_string name message)
  end.

Definition not_a_string : value :=
  type_error "Cannot convert object to primitive value".

(** The template literal [`${prefix}${v}${suffix}`]. *)
Definition template (prefix : string) (v : value) (suffix : string)
  : result string :=
  match to_string v with
  | Some s => Ok (prefix ++ s ++ suffix)
  | None => Throw not_a_string
  end.

(** The method call [v.toString()]. *)
Definition call_toString (v : value) : result value :=
  match v with
  | VUndefined | VNull => Throw (cannot_read v "toString")
  | _ =>
      match to_string v with
      | Some s => Ok (VStr s)
      | None => Throw (type_error "err.toString is not a function")
      end
  end.

Definition nullish (v : value) : bool :=
  match v with
  | VUndefined | VNull => true
  | _ => false
  end.

End JS.

(** ** Promises, the transport and what a call leaves behind *)

Module Run.
Import JS.

(** The state of a promise. *)
Inductive settle : Type :=
| Pending
| Fulfilled (v : value)
| Rejected (v : value).

(** The options [request.defaults] is given in [Now]; the function it
    returns is kept as the options it closes over. *)
Record options : Type := {
  baseUrl : string;
  timeout : Z;
  json : bool;
  headers : list (string * string)
}.

(** What a call is seen to do, in order. *)
Inductive event : Type :=
| EEnv (name : string)
| ERequire (file : string)
| EError (line : string)
| ERequest (opts : options) (config : value)
| ECallback (f : nat) (err data : value).

(** What [this.request(config).then(..).catch(..)] comes to: the
    expression raises (the transport raises, or returns no thenable), or
    the transport's promise stays pending, is fulfilled with the decoded
    body, or is rejected with a failure. *)
Inductive response : Type :=
| Raises (e : value)
| Settles (s : settle).

(** The surroundings of a request: the transport behind [this.request],
    and for each function handed in as a callback whether its call with
    [(err, data)] returns ([None]) or raises. *)
Record world : Type := {
  transport : options -> value -> response;
  callback_raises : nat -> value -> value -> option value
}.

(** A call of a public method: it returns a promise, given here by the
    state it comes to rest in, or raises; and the events it caused. *)
Definition run : Type := result settle * list event.

(** [resolve] and [reject] of a promise: the first call settles it.  No
    data value is a thenable, so [resolve] fulfils. *)
Definition resolve (p : settle) (v : value) : settle :=
  match p with
  | Pending => Fulfilled v
  | _ => p
  end.

Definition reject (p : settle) (e : value) : settle :=
  match p with
  | Pending => Rejected e
  | _ => p
  end.

(** An exception leaving the executor of [new Promise] rejects the
    promise. *)
Definition executor_end (p : settle) (r : result unit) : settle :=
  match r with
  | Ok _ => p
  | Throw e => reject p e
  end.

Definition bind {A B : Type} (r : result A) (k : A -> result B) : result B :=
  match r with
  | Ok a => k a
  | Throw e => Throw e
  end.

Definition is_request (e : event) : bool :=
  match e with
  | ERequest _ _ => true
  | _ => false
  end.

(** The transport calls among the events of a run. *)
Definition requests (t : list event) : list event := filter is_request t.

Definition is_callback (e : event) : bool :=
  match e with
  | ECallback _ _ _ => true
  | _ => false
  end.

(** The callback calls among the events of a run. *)
Definition callbacks (t : list event) : list event := filter is_callback t.

End Run.

Notation "x <- r ;; k" := (Run.bind r (fun x => k))
  (at level 61, r at next level, right associativity).

(** ** The client *)

Module Client.
Import JS Run.

Inductive error_kind : Type :=
| MISSING_ID
| MISSING_FILE_ID
| MISSING_BODY
| MISSING_CN
| MISSING_ALIAS
| MISSING_NAME
| MISSING_VALUE.

Definition pair (code message : string) : value :=
  VObj [("code", VStr code); ("message", VStr message)].

Definition ERROR (k : error_kind) : value :=
  match k with
  | MISSING_ID => pair "missing_id" "Missing `id` parameter"
  | MISSING_FILE_ID => pair "missing_file_id" "Missing `fileId` parameter"
  | MISSING_BODY => pair "missing_body" "Missing `body` parameter"
  | MISSING_CN => pair "missing_cn" "Missing `cn` parameter"
  | MISSING_ALIAS => pair "missing_body" "Missing `alias` parameter"
  | MISSING_NAME => pair "missing_name" "Missing `name` parameter"
  | MISSING_VALUE => pair "missing_value" "Missing `value` parameter"
  end.

(** *** Construction *)

(** Where a token can come from besides the argument: the environment
    variable, unset or a string, and what [require] of [~/.now.json] gives,
    the decoded file or the error it raises. *)
Inductive required : Type :=
| Loaded (module : value)
| Failed (name message : string).

Record host : Type := {
  NOW_TOKEN : option string;
  now_json : required
}.

(** [path.join(os.homedir(), '.now.json')], with [~] for the home
    directory. *)
Definition configPath : string := "~/.now.json".

Definition _getToken (h : host) : result value * list event :=
  let token := match NOW_TOKEN h with
               | Some s => VStr s
               | None => VUndefined
               end in
  if negb (truthy token) then
    let loaded := match now_json h with
                  | Loaded m => get m "token"
                  | Failed n msg => Throw (VErr n msg [])
                  end in
    match loaded with
    | Ok t => (Ok t, [EEnv "NOW_TOKEN"; ERequire configPath])
    | Throw err =>
        match template "Error: " err "" with
        | Ok line =>
            (Ok token, [EEnv "NOW_TOKEN"; ERequire configPath; EError line])
        | Throw e => (Throw e, [EEnv "NOW_TOKEN"; ERequire configPath])
        end
    end
  else (Ok token, [EEnv "NOW_TOKEN"]).

(** An instance, by its own fields. *)
Record instance : Type := {
  token : option value;
  request : option options
}.

(** What the call leaves its caller with: [undefined], or an instance. *)
Inductive constructed : Type :=
| NoInstance
| Instance (i : instance).

Definition bare : instance := {| token := None; request := None |}.

Definition no_token : string :=
  "No token found! " ++
  "Supply it as argument or use the NOW_TOKEN env variable. " ++
  "`~/.now.json` will be used, if it's found in your home directory.".

(** The default of the parameter: [token = _getToken()], taken when the
    argument is [undefined]. *)
Definition token_param (a : value) (h : host) : result value * list event :=
  match a with
  | VUndefined => _getToken h
  | _ => (Ok a, [])
  end.

(** The options of [request.defaults], for an [Authorization] header. *)
Definition defaults (auth : string) : options :=
  {| baseUrl := "https://api.zeit.co";
     timeout := 30000;
     json := true;
     headers := [("Authorization", auth)] |}.

(** The two assignments that end the constructor. *)
Definition configure (tok : value) : result constructed :=
  auth <- template "Bearer " tok "" ;;
  Ok (Instance {| token := Some tok; request := Some (defaults auth) |}).

(** [new Now(a)]: [this instanceof Now] holds.  A [return] of [undefined]
    leaves [new] with the fresh object. *)
Definition Now_new (a : value) (h : host) : result constructed * list event :=
  match token_param a h with
  | (Throw e, t) => (Throw e, t)
  | (Ok tok, t) =>
      if negb (truthy tok) then
        (Ok (Instance bare), (t ++ [EError no_token])%list)
      else (configure tok, t)
  end.

(** [Now(a)], called as a plain function: [this instanceof Now] fails and
    the call returns [new Now(token)]. *)
Definition Now_call (a : value) (h : host) : result constructed * list event :=
  match token_param a h with
  | (Throw e, t) => (Throw e, t)
  | (Ok tok, t) =>
      if negb (truthy tok) then (Ok NoInstance, (t ++ [EError no_token])%list)
      else let (r, t') := Now_new tok h in (r, (t ++ t')%list)
  end.

Inductive call_mode : Type :=
| WithNew
| Plain.

Definition Now (m : call_mode)
  : value -> host -> result constructed * list event :=
  match m with
  | WithNew => Now_new
  | Plain => Now_call
  end.

(** *** The request pipeline *)

Section Pipeline.

Variable w : world.

(** [handleCallback(callback, err, data)]: the callback is fired when it
    is a function; an exception of the callback leaves the method. *)
Definition handleCallback (callback : arg) (err data : value)
  : result unit * list event :=
  match callback with
  | AFun f =>
      (match callback_raises w f err data with
       | Some e => Throw e
       | None => Ok tt
       end, [ECallback f err data])
  | AVal _ => (Ok tt, [])
  end.

(** [handleError(err, callback)]: the executor rejects, then fires the
    callback. *)
Definition handleError (err : value) (callback : arg) : run :=
  let p := reject Pending err in
  let (r, t) := handleCallback callback err VUndefined in
  (Ok (executor_end p r), t).

(** The value [errData] of the [catch] handler. *)
Definition normalize (err : value) : result value :=
  d <- get err "data" ;;
  c <- (if truthy d then e <- get d "err" ;; Ok (truthy e) else Ok false) ;;
  if c then
    d1 <- get err "data" ;; get d1 "err"
  else
    d2 <- get err "data" ;;
    if truthy d2 then get err "data" else call_toString err.

(** [selector ? res[selector] : res], for a [selector] that is a string
    or left out. *)
Definition select (selector : option string) (res : value) : result value :=
  match selector with
  | Some k => if negb (k =? "") then get res k else Ok res
  | None => Ok res
  end.

(** The [then] handler on a promise in state [p]: the promise after it,
    how the handler ends, and its events. *)
Definition on_fulfilled (callback : arg) (selector : option string)
    (res : value) (p : settle) : settle * result unit * list event :=
  match select selector res with
  | Throw e => (p, Throw e, [])
  | Ok data =>
      let (r, t) := handleCallback callback VUndefined data in
      (resolve p data, r, t)
  end.

(** The [catch] handler: it receives the transport's failure, or what the
    [then] handler raised.  What it raises itself rejects only the promise
    [catch] returns, which nobody holds. *)
Definition on_rejected (callback : arg) (err : value) (p : settle)
  : settle * list event :=
  match normalize err with
  | Throw _ => (p, [])
  | Ok errData =>
      let (_, t) := handleCallback callback errData VUndefined in
      (reject p errData, t)
  end.

Definition not_a_function : value :=
  type_error "this.request is not a function".

(** [handleRequest(config, callback, selector)] on the instance [this];
    [selector] is a string or left out. *)
Definition handleRequest (this : instance) (config : value) (callback : arg)
    (selector : option string) : run :=
  match request this with
  | None => (Ok (executor_end Pending (Throw not_a_function)), [])
  | Some opts =>
      match transport w opts config with
      | Raises e =>
          (Ok (executor_end Pending (Throw e)), [ERequest opts config])
      | Settles Pending => (Ok Pending, [ERequest opts config])
      | Settles (Fulfilled res) =>
          match on_fulfilled callback selector res Pending with
          | (p, Ok _, t) => (Ok p, (ERequest opts config :: t)%list)
          | (p, Throw e, t) =>
              let (p', t') := on_rejected callback e p in
              (Ok p', (ERequest opts config :: t ++ t')%list)
          end
      | Settles (Rejected err) =>
          let (p, t) := on_rejected callback err Pending in
          (Ok p, (ERequest opts config :: t)%list)
      end
  end.

(** *** Endpoints *)

Definition config2 (url method : string) : value :=
  VObj [("url", VStr url); ("method", VStr method)].

Definition config3 (url method : string) (body : value) : value :=
  VObj [("url", VStr url); ("method", VStr method); ("body", body)].

(** A synchronous exception ends the call with no event. *)
Definition sync (r : result run) : run :=
  match r with
  | Ok x => x
  | Throw e => (Throw e, [])
  end.

Definition getDeployments (this : instance) (callback : arg) : run :=
  handleRequest this (config2 "/now/deployments" "get") callback
                (Some "deployments").

Definition getDeployment (this : instance) (id : value) (callback : arg)
  : run :=
  if negb (truthy id) then handleError (ERROR MISSING_ID) callback
  else sync (url <- template "/now/deployments/" id "" ;;
             Ok (handleRequest this (config2 url "get") callback None)).

Definition createDeployment (this : instance) (body : value) (callback : arg)
  : run :=
  if negb (truthy body) then handleError (ERROR MISSING_BODY) callback
  else handleRequest this (config3 "/now/deployments" "post" body)
                     callback None.

Definition deleteDeployment (this : instance) (id : value) (callback : arg)
  : run :=
  if negb (truthy id) then handleError (ERROR MISSING_ID) callback
  else sync (url <- template "/now/deployments/" id "" ;;
             Ok (handleRequest this (config2 url "delete") callback None)).

Definition getFiles (this : instance) (id : value) (callback : arg) : run :=
  if negb (truthy id) then handleError (ERROR MISSING_ID) callback
  else sync (url <- template "/now/deployments/" id "/files" ;;
             Ok (handleRequest this (config2 url "get") callback None)).

Definition getFile (this : instance) (id fileId : value) (callback : arg)
  : run :=
  if negb (truthy id) then handleError (ERROR MISSING_ID) callback
  else if negb (truthy fileId) then
    handleError (ERROR MISSING_FILE_ID) callback
  else sync (dir <- template "/now/deployments/" id "/files/" ;;
             url <- template dir fileId "" ;;
             Ok (handleRequest this (config2 url "get") callback None)).

Definition getDomains (this : instance) (callback : arg) : run :=
  handleRequest this (config2 "/domains" "get") callback (Some "domains").

Definition addDomain (this : instance) (domain : value) (callback : arg)
  : run :=
  sync (n <- get domain "name" ;;
        if negb (typeof n =? "string") then
          Ok (handleError (ERROR MISSING_NAME) callback)
        else
          name <- get domain "name" ;;
          isExternal <- get domain "isExternalDNS" ;;
          Ok (handleRequest this
                (config3 "/domains" "post"
                   (VObj [("name", name); ("isExternal", isExternal)]))
                callback None)).

Definition deleteDomain (this : instance) (name : value) (callback : arg)
  : run :=
  if negb (typeof name =? "string") then
    handleError (ERROR MISSING_NAME) callback
  else sync (url <- template "/domains/" name "" ;;
             Ok (handleRequest this (config2 url "delete") callback None)).

(** The two tests on [typeof cn] are the first two cases below. *)
Definition getCertificates (this : instance) (cn callback : arg) : run :=
  let url := "/now/certs" in
  let _callback := callback in
  let '(url, _callback) :=
    match cn with
    | AFun _ => (url, cn)
    | AVal (VStr s) => ("/now/certs/" ++ s, _callback)
    | AVal _ => (url, _callback)
    end in
  handleRequest this (config2 url "get") _callback (Some "certs").

Definition createAlias (this : instance) (id alias : value) (callback : arg)
  : run :=
  if negb (truthy id) then handleError (ERROR MISSING_ID) callback
  else if negb (truthy alias) then handleError (ERROR MISSING_ALIAS) callback
  else sync (dir <- template "/now/deployments/" id "/aliases" ;;
             Ok (handleRequest this
                   (config3 dir "post" (VObj [("alias", alias)]))
                   callback None)).

Definition deleteAlias (this : instance) (id : value) (callback : arg) : run :=
  if negb (truthy id) then handleError (ERROR MISSING_ID) callback
  else sync (url <- template "/now/aliases/" id "" ;;
             Ok (handleRequest this (config2 url "delete") callback None)).

Definition getSecrets (this : instance) (callback : arg) : run :=
  handleRequest this (config2 "/now/secrets" "get") callback (Some "secrets").

Definition createSecret (this : instance) (name value : value)
    (callback : arg) : run :=
  if negb (truthy name) then handleError (ERROR MISSING_NAME) callback
  else if negb (truthy value) then handleError (ERROR MISSING_VALUE) callback
  else handleRequest this
         (config3 "/now/secrets" "post"
            (VObj [("name", name); ("value", value)]))
         callback None.

Definition renameSecret (this : instance) (id name : value) (callback : arg)
  : run :=
  if negb (truthy id) then handleError (ERROR MISSING_ID) callback
  else if negb (truthy name) then handleError (ERROR MISSING_NAME) callback
  else sync (url <- template "/now/secrets/" id "" ;;
             Ok (handleRequest this
                   (config3 url "patch" (VObj [("name", name)]))
                   callback None)).

Definition deleteSecret (this : instance) (id : value) (callback : arg) : run :=
  if negb (truthy id) then handleError (ERROR MISSING_ID) callback
  else sync (url <- template "/now/secrets/" id "" ;;
             Ok (handleRequest this (config2 url "delete") callback None)).

(** *** The endpoints that check no argument, or check one by its type *)

Definition config_data (url method : string) (data : value) : value :=
  VObj [("url", VStr url); ("method", VStr method); ("data", data)].

Definition getDomainRecords (this : instance) (domain : value)
    (callback : arg) : run :=
  sync (url <- template "/domains/" domain "/records" ;;
        Ok (handleRequest this (config2 url "get") callback
                          (Some "records"))).

Definition addDomainRecord (this : instance) (domain recordData : value)
    (callback : arg) : run :=
  sync (url <- template "/domains/" domain "/records" ;;
        Ok (handleRequest this (config_data url "post" recordData)
                          callback None)).

Definition deleteDomainRecord (this : instance) (domain recordId : value)
    (callback : arg) : run :=
  sync (dir <- template "/domains/" domain "/records/" ;;
        url <- template dir recordId "" ;;
        Ok (handleRequest this (config2 url "delete") callback None)).

(** [typeof cn !== 'string'] is every case but the first; the error is
    handed to [handleError] with [cn] where the callback goes. *)
Definition createCertificate (this : instance) (cn callback : arg) : run :=
  match cn with
  | AVal (VStr s) =>
      handleRequest this
        (config3 "/now/certs" "post" (VObj [("domains", VArr [VStr s])]))
        callback None
  | _ => handleError (ERROR MISSING_CN) cn
  end.

Definition renewCertificate (this : instance) (cn callback : arg) : run :=
  match cn with
  | AVal (VStr s) =>
      handleRequest this
        (config3 "/now/certs" "post"
           (VObj [("domains", VArr [VStr s]); ("renew", VBool true)]))
        callback None
  | _ => handleError (ERROR MISSING_CN) cn
  end.

(** The two tests on [typeof ca] are the first two cases below. *)
Definition replaceCertificate (this : instance) (cn cert key : value)
    (ca callback : arg) : run :=
  let _ca := "" in
  let _callback := callback in
  let '(_ca, _callback) :=
    match ca with
    | AFun _ => (_ca, ca)
    | AVal (VStr s) => (s, _callback)
    | AVal _ => (_ca, _callback)
    end in
  handleRequest this
    (config3 "/now/certs" "put"
       (VObj [("domains", VArr [cn]); ("ca", VStr _ca);
              ("cert", cert); ("key", key)]))
    _callback (Some "created").

Definition deleteCertificate (this : instance) (cn callback : arg) : run :=
  match cn with
  | AVal (VStr s) =>
      handleRequest this (config2 ("/now/certs/" ++ s) "delete") callback None
  | _ => handleError (ERROR MISSING_CN) cn
  end.

(** The two tests on [typeof id] are the first two cases below. *)
Definition getAliases (this : instance) (id callback : arg) : run :=
  let url := "/now/aliases" in
  let _callback := callback in
  let '(url, _callback) :=
    match id with
    | AFun _ => (url, id)
    | AVal (VStr s) => ("/now/deployments/" ++ s ++ "/aliases", _callback)
    | AVal _ => (url, _callback)
    end in
  handleRequest this (config2 url "get") _callback (Some "aliases").

End Pipeline.

End Client.

(** ** What the specification says, in its own words *)

Module Spec.
Import JS Run Client.

(** The value under a field of a failure or a body, [undefined] where
    there is none. *)
Definition field (v : value) (k : string) : value :=
  match get v k with
  | Ok x => x
  | Throw _ => VUndefined
  end.

(** The failure normalization policy: the nested [data.err], else the
    [data] payload, else the string representation of the failure. *)
Definition three_tier (err : value) : option value :=
  let data := field err "data" in
  if truthy data && truthy (field data "err") then Some (field data "err")
  else if truthy data then Some data
  else option_map VStr (to_string err).

(** The calls of the endpoint methods that require an identifying
    parameter. *)
Inductive guarded : Type :=
| GetDeployment (id : value)
| DeleteDeployment (id : value)
| GetFiles (id : value)
| GetFile (id fileId : value)
| CreateDeployment (body : value)
| CreateAlias (id alias : value)
| DeleteAlias (id : value)
| CreateSecret (name value : value)
| RenameSecret (id name : value)
| DeleteSecret (id : value).

Definition invoke (w : world) (this : instance) (c : guarded) (callback : arg)
  : run :=
  match c with
  | GetDeployment id => getDeployment w this id callback
  | DeleteDeployment id => deleteDeployment w this id callback
  | GetFiles id => getFiles w this id callback
  | GetFile id fileId => getFile w this id fileId callback
  | CreateDeployment body => createDeployment w this body callback
  | CreateAlias id alias => createAlias w this id alias callback
  | DeleteAlias id => deleteAlias w this id callback
  | CreateSecret name value => createSecret w this name value callback
  | RenameSecret id name => renameSecret w this id name callback
  | DeleteSecret id => deleteSecret w this id callback
  end.

(** The required parameters of a call, in the order the method takes
    them, each with the parameter kind its absence is reported under. *)
Definition required_parameters (c : guarded) : list (value * error_kind) :=
  match c with
  | GetDeployment id => [(id, MISSING_ID)]
  | DeleteDeployment id => [(id, MISSING_ID)]
  | GetFiles id => [(id, MISSING_ID)]
  | GetFile id fileId => [(id, MISSING_ID); (fileId, MISSING_FILE_ID)]
  | CreateDeployment body => [(body, MISSING_BODY)]
  | CreateAlias id alias => [(id, MISSING_ID); (alias, MISSING_ALIAS)]
  | DeleteAlias id => [(id, MISSING_ID)]
  | CreateSecret name value => [(name, MISSING_NAME); (value, MISSING_VALUE)]
  | RenameSecret id name => [(id, MISSING_ID); (name, MISSING_NAME)]
  | DeleteSecret id => [(id, MISSING_ID)]
  end.

(** The kind of the first required parameter that is absent (falsy). *)
Fixpoint first_missing (ps : list (value * error_kind)) : option error_kind :=
  match ps with
  | [] => None
  | (v, k) :: rest => if truthy v then first_missing rest else Some k
  end.

(** A selector counts as supplied when it is a string the code takes for
    one: a non-empty string. *)
Definition supplied (selector : option string) : option string :=
  match selector with
  | Some k => if k =? "" then None else Some k
  | None => None
  end.

(** The sources of a credential after the argument: what the environment
    variable holds and what the [token] field of the configuration file
    holds, [undefined] where there is nothing. *)
Definition env_token (h : host) : value :=
  match NOW_TOKEN h with
  | Some s => VStr s
  | None => VUndefined
  end.

Definition file_token (h : host) : value :=
  match now_json h with
  | Loaded m => field m "token"
  | Failed _ _ => VUndefined
  end.

(** An argument is present when it is not [undefined]. *)
Definition present (a : value) : bool :=
  match a with
  | VUndefined => false
  | _ => true
  end.

(** The resolution order: the explicit argument, then the environment
    variable, then the configuration file. *)
Definition precedence (a : value) (h : host) : value :=
  if present a then a
  else if truthy (env_token h) then env_token h
  else file_token h.

(** What a call of [Now] that finds no token leaves its caller with. *)
Definition nothing_usable (m : call_mode) : constructed :=
  match m with
  | WithNew => Instance bare
  | Plain => NoInstance
  end.

Definition code_of (v : value) : value := field v "code".

Definition message_of (v : value) : value := field v "message".

End Spec.

(** ** Sample surroundings *)

Module Sample.
Import JS Run Client.

(** A transport that answers every request alike, with callbacks that
    return. *)
Definition spy (r : response) : world :=
  {| transport := fun _ _ => r;
     callback_raises := fun _ _ _ => None |}.

(** The same transport, with callbacks that raise. *)
Definition rude (r : response) : world :=
  {| transport := fun _ _ => r;
     callback_raises := fun _ _ _ => Some (VStr "boom") |}.

Definition client : instance :=
  {| token := Some (VStr "t0k3n");
     request := Some (defaults "Bearer t0k3n") |}.

(** A failure with a structured body, one with a plain body, and a bare
    transport exception. *)
Definition structured : value :=
  VErr "StatusCodeError" "400"
       [("data", VObj [("err", VObj [("code", VStr "x")])])].

Definition plain_text : value :=
  VErr "StatusCodeError" "500" [("data", VStr "plain text")].

Definition timed_out : value := VErr "RequestError" "ETIMEDOUT" [].

Definition envelope : value :=
  VObj [("deployments", VArr [VStr "A"; VStr "B"])].

(** A machine with neither the variable nor the file, one with the
    variable, one with the file only. *)
Definition empty_host : host :=
  {| NOW_TOKEN := None;
     now_json := Failed "Error" "Cannot find module '~/.now.json'" |}.

Definition env_host : host :=
  {| NOW_TOKEN := Some "from-env";
     now_json := Loaded (VObj [("token", VStr "from-file")]) |}.

Definition file_host : host :=
  {| NOW_TOKEN := Some "";
     now_json := Loaded (VObj [("token", VStr "from-file")]) |}.

End Sample.

(** ** The public methods as one type of calls *)

Module Api.
Import JS Run Client.

(** A call of a method of the prototype, without its trailing callback. *)
Inductive operation : Type :=
| OGetDeployments
| OGetDeployment (id : value)
| OCreateDeployment (body : value)
| ODeleteDeployment (id : value)
| OGetFiles (id : value)
| OGetFile (id fileId : value)
| OGetDomains
| OAddDomain (domain : value)
| ODeleteDomain (name : value)
| OGetDomainRecords (domain : value)
| OAddDomainRecord (domain recordData : value)
| ODeleteDomainRecord (domain recordId : value)
| OGetCertificates (cn : arg)
| OCreateCertificate (cn : arg)
| ORenewCertificate (cn : arg)
| OReplaceCertificate (cn cert key : value) (ca : arg)
| ODeleteCertificate (cn : arg)
| OGetAliases (id : arg)
| OCreateAlias (id alias : value)
| ODeleteAlias (id : value)
| OGetSecrets
| OCreateSecret (name value : value)
| ORenameSecret (id name : value)
| ODeleteSecret (id : value).

Definition perform (w : world) (this : instance) (op : operation)
    (callback : arg) : run :=
  match op with
  | OGetDeployments => getDeployments w this callback
  | OGetDeployment id => getDeployment w this id callback
  | OCreateDeployment body => createDeployment w this body callback
  | ODeleteDeployment id => deleteDeployment w this id callback
  | OGetFiles id => getFiles w this id callback
  | OGetFile id fileId => getFile w this id fileId callback
  | OGetDomains => getDomains w this callback
  | OAddDomain domain => addDomain w this domain callback
  | ODeleteDomain name => deleteDomain w this name callback
  | OGetDomainRecords domain => getDomainRecords w this domain callback
  | OAddDomainRecord domain recordData =>
      addDomainRecord w this domain recordData callback
  | ODeleteDomainRecord domain recordId =>
      deleteDomainRecord w this domain recordId callback
  | OGetCertificates cn => getCertificates w this cn callback
  | OCreateCertificate cn => createCertificate w this cn callback
  | ORenewCertificate cn => renewCertificate w this cn callback
  | OReplaceCertificate cn cert key ca =>
      replaceCertificate w this cn cert key ca callback
  | ODeleteCertificate cn => deleteCertificate w this cn callback
  | OGetAliases id => getAliases w this id callback
  | OCreateAlias id alias => createAlias w this id alias callback
  | ODeleteAlias id => deleteAlias w this id callback
  | OGetSecrets => getSecrets w this callback
  | OCreateSecret name value => createSecret w this name value callback
  | ORenameSecret id name => renameSecret w this id name callback
  | ODeleteSecret id => deleteSecret w this id callback
  end.

End Api.

(** ** The pipeline before callbacks were supported *)

Module Legacy.
Import JS Run Client.

(** [handleError(err)] of the earlier, promise-only client. *)
Definition handleError (err : value) : run :=
  (Ok (reject Pending err), []).

(** [handleRequest(config, selector)] of the earlier, promise-only
    client: the same two handlers, without the calls of
    [handleCallback]. *)
Definition handleRequest (w : world) (this : instance) (config : value)
    (selector : option string) : run :=
  match request this with
  | None => (Ok (executor_end Pending (Throw not_a_function)), [])
  | Some opts =>
      match transport w opts config with
      | Raises e =>
          (Ok (executor_end Pending (Throw e)), [ERequest opts config])
      | Settles Pending => (Ok Pending, [ERequest opts config])
      | Settles (Fulfilled res) =>
          match select selector res with
          | Ok data => (Ok (resolve Pending data), [ERequest opts config])
          | Throw e =>
              match normalize e with
              | Ok errData =>
                  (Ok (reject Pending errData), [ERequest opts config])
              | Throw _ => (Ok Pending, [ERequest opts config])
              end
          end
      | Settles (Rejected err) =>
          match normalize err with
          | Ok errData =>
              (Ok (reject Pending errData), [ERequest opts config])
          | Throw _ => (Ok Pending, [ERequest opts config])
          end
      end
  end.

End Legacy.

Import JS Run Client Spec.

(** ** Values *)

Lemma get_defined (v : value) (k : string) :
  nullish v = false -> exists x, get v k = Ok x.
Proof.
  destruct v; simpl; try discriminate; intros _; eauto.
  - destruct (k =? "length"); eauto.
    destruct (index_of_key k); eauto.
    destruct (_ <? _)%nat; eauto.
  - destruct (k =? "length"); eauto.
    destruct (index_of_key k); eauto.
  - destruct (lookup k props); eauto.
  - destruct (k =? "name"); eauto.
    destruct (k =? "message"); eauto.
    destruct (lookup k props); eauto.
Qed.

Lemma get_raises (v : value) (k : string) (e : value) :
  get v k = Throw e -> e = cannot_read v k.
Proof.
  intros H. destruct (nullish v) eqn:Hn.
  - destruct v; simpl in *; congruence.
  - destruct (get_defined v k Hn) as [x Hx]. congruence.
Qed.

Lemma get_field (v : value) (k : string) :
  nullish v = false -> get v k = Ok (field v k).
Proof.
  intros H. unfold field.
  destruct (get_defined v k H) as [x ->]. reflexivity.
Qed.

Lemma absent_field (v : value) (k : string) :
  has_property v k = false -> field v k = VUndefined.
Proof.
  unfold field. destruct v; simpl; trivial.
  - destruct (k =? "length"); [discriminate|]. simpl.
    destruct (index_of_key k); trivial. intros ->. reflexivity.
  - destruct (k =? "length"); [discriminate|]. simpl.
    destruct (index_of_key k) as [i|]; trivial. intros H.
    apply Nat.ltb_ge in H. rewrite nth_overflow; trivial.
  - unfold has_own. destruct (lookup k props); [discriminate|trivial].
  - destruct (k =? "name"); [discriminate|].
    destruct (k =? "message"); [discriminate|]. simpl.
    unfold has_own. destruct (lookup k props); [discriminate|trivial].
Qed.

Lemma truthy_not_nullish (v : value) : truthy v = true -> nullish v = false.
Proof. destruct v; simpl; congruence. Qed.

Lemma call_toString_defined (v : value) (s : string) :
  nullish v = false -> to_string v = Some s -> call_toString v = Ok (VStr s).
Proof.
  intros Hn Hs. destruct v; simpl in Hn; try discriminate;
    unfold call_toString; rewrite Hs; reflexivity.
Qed.

Lemma append_empty (s : string) : s ++ "" = s.
Proof. induction s as [|c s IH]; simpl; congruence. Qed.

(** The code's [errData] is the specification's three tiers. *)
Lemma normalize_three_tier (err v : value) :
  nullish err = false -> three_tier err = Some v -> normalize err = Ok v.
Proof.
  intros Hn Ht. unfold normalize, three_tier in *.
  rewrite (get_field err "data" Hn). cbn [bind].
  destruct (truthy (field err "data")) eqn:Hd; cbn [andb] in Ht.
  - rewrite (get_field _ "err" (truthy_not_nullish _ Hd)). cbn [bind].
    destruct (truthy (field (field err "data") "err")) eqn:He;
      inversion Ht; subst; reflexivity.
  - cbn [bind].
    destruct (to_string err) as [s|] eqn:Hs; simpl in Ht; inversion Ht; subst.
    apply call_toString_defined; assumption.
Qed.

(** The code's test of the selector is the specification's "supplied". *)
Lemma select_supplied (selector : option string) (res : value) :
  select selector res
  = match supplied selector with
    | Some k => get res k
    | None => Ok res
    end.
Proof.
  destruct selector as [k|]; simpl; trivial. destruct (k =? ""); reflexivity.
Qed.

(** ** The pipeline *)

Section Facts.

Variable w : world.

Lemma handleCallback_no_request (callback : arg) (err data : value) :
  requests (snd (handleCallback w callback err data)) = [].
Proof. destruct callback; reflexivity. Qed.

(** [handleError] rejects with what it is given and calls no transport,
    whatever the callback does. *)
Lemma handleError_rejects (err : value) (callback : arg) :
  fst (handleError w err callback) = Ok (Rejected err)
  /\ requests (snd (handleError w err callback)) = [].
Proof.
  unfold handleError.
  pose proof (handleCallback_no_request callback err VUndefined) as Hq.
  destruct (handleCallback w callback err VUndefined) as [r t].
  split; [destruct r; reflexivity | exact Hq].
Qed.

Lemma on_rejected_no_request (callback : arg) (err : value) (p : settle) :
  requests (snd (on_rejected w callback err p)) = [].
Proof.
  unfold on_rejected. destruct (normalize err) as [x|x]; trivial.
  pose proof (handleCallback_no_request callback x VUndefined) as Hq.
  destruct (handleCallback w callback x VUndefined). exact Hq.
Qed.

Lemma on_fulfilled_no_request (callback : arg) (selector : option string)
    (res : value) (p : settle) :
  requests (snd (on_fulfilled w callback selector res p)) = [].
Proof.
  unfold on_fulfilled. destruct (select selector res) as [d|e]; trivial.
  pose proof (handleCallback_no_request callback VUndefined d) as Hq.
  destruct (handleCallback w callback VUndefined d). exact Hq.
Qed.

(** The [catch] handler rejects a pending promise with [errData] and
    leaves a fulfilled one as it is. *)
Lemma on_rejected_settles (callback : arg) (err v : value) :
  normalize err = Ok v ->
  fst (on_rejected w callback err Pending) = Rejected v.
Proof.
  intros H. unfold on_rejected. rewrite H.
  destruct (handleCallback w callback v VUndefined). reflexivity.
Qed.

Lemma on_rejected_keeps (callback : arg) (err d : value) :
  fst (on_rejected w callback err (Fulfilled d)) = Fulfilled d.
Proof.
  unfold on_rejected. destruct (normalize err) as [x|x]; trivial.
  destruct (handleCallback w callback x VUndefined). reflexivity.
Qed.

(** Once the [then] handler has a value to resolve with, the promise is
    fulfilled with it, whatever the callback does afterwards. *)
Lemma fulfilled_with (this : instance) (opts : options) (config : value)
    (callback : arg) (selector : option string) (res d : value) :
  request this = Some opts ->
  transport w opts config = Settles (Fulfilled res) ->
  select selector res = Ok d ->
  fst (handleRequest w this config callback selector) = Ok (Fulfilled d).
Proof.
  intros Hr Ht Hd. unfold handleRequest, on_fulfilled. rewrite Hr, Ht, Hd.
  destruct (handleCallback w callback VUndefined d) as [[u|e] t]; simpl.
  - reflexivity.
  - pose proof (on_rejected_keeps callback e d) as Hk.
    destruct (on_rejected w callback e (Fulfilled d)) as [p' t'].
    simpl in *. congruence.
Qed.

(** A callback that is a function is handed the selected data. *)
Lemma callback_gets_data (this : instance) (opts : options) (config : value)
    (f : nat) (selector : option string) (res d : value) :
  request this = Some opts ->
  transport w opts config = Settles (Fulfilled res) ->
  select selector res = Ok d ->
  In (ECallback f VUndefined d)
     (snd (handleRequest w this config (AFun f) selector)).
Proof.
  intros Hr Ht Hd. unfold handleRequest, on_fulfilled. rewrite Hr, Ht, Hd.
  simpl. destruct (callback_raises w f VUndefined d).
  - destruct (on_rejected w (AFun f) v (Fulfilled d)).
    simpl. right. left. reflexivity.
  - simpl. right. left. reflexivity.
Qed.

(** A request on an instance with a transport calls it exactly once. *)
Lemma handleRequest_one_request (this : instance) (opts : options)
    (config : value) (callback : arg) (selector : option string) :
  request this = Some opts ->
  requests (snd (handleRequest w this config callback selector))
  = [ERequest opts config].
Proof.
  intros Hr. unfold handleRequest. rewrite Hr.
  destruct (transport w opts config) as [e|[|res|err]]; try reflexivity.
  - pose proof (on_fulfilled_no_request callback selector res Pending) as H1.
    destruct (on_fulfilled w callback selector res Pending) as [[p [u|e]] t].
    + simpl in *. unfold requests in *. simpl. rewrite H1. reflexivity.
    + pose proof (on_rejected_no_request callback e p) as H2.
      destruct (on_rejected w callback e p) as [p' t'].
      simpl in *. unfold requests in *. simpl.
      rewrite filter_app, H1, H2. reflexivity.
  - pose proof (on_rejected_no_request callback err Pending) as H2.
    destruct (on_rejected w callback err Pending) as [p t].
    simpl in *. unfold requests in *. simpl. rewrite H2. reflexivity.
Qed.

End Facts.

(** ** Construction *)

(** [_getToken] returns: what [require] or the read of [.token] raises
    is caught and logged. *)
Lemma getToken_returns (h : host) :
  exists tok t, _getToken h = (Ok tok, t).
Proof.
  unfold _getToken.
  destruct (negb _); [|eauto].
  destruct (now_json h) as [m|n msg].
  - destruct (get m "token") as [t|e] eqn:E; [eauto|].
    rewrite (get_raises _ _ _ E). unfold cannot_read, template. simpl. eauto.
  - unfold template. simpl. eauto.
Qed.

(** The code's resolution against the specification's order: it returns,
    finds something exactly when the order does, and then finds the same. *)
Lemma token_param_precedence (a : value) (h : host) :
  exists tok t,
    token_param a h = (Ok tok, t)
    /\ truthy tok = truthy (precedence a h)
    /\ (truthy tok = true -> tok = precedence a h).
Proof.
  unfold precedence.
  destruct a; try (eexists; eexists; split; [reflexivity|];
                   split; [reflexivity|trivial]).
  unfold token_param, _getToken, present, env_token, file_token.
  destruct (truthy (match NOW_TOKEN h with
                    | Some s => VStr s
                    | None => VUndefined
                    end)) eqn:He; simpl.
  - eexists; eexists; split; [reflexivity|]. rewrite He. auto.
  - destruct (now_json h) as [m|n msg].
    + unfold field. destruct (get m "token") as [t|e] eqn:E.
      * eexists; eexists; split; [reflexivity|]. auto.
      * rewrite (get_raises _ _ _ E). unfold cannot_read, template. simpl.
        eexists; eexists; split; [reflexivity|].
        rewrite He. split; [reflexivity|discriminate].
    + unfold template. simpl.
      eexists; eexists; split; [reflexivity|].
      rewrite He. split; [reflexivity|discriminate].
Qed.

(** Both ways of calling [Now] in one equation. *)
Lemma Now_unfold (m : call_mode) (a : value) (h : host) :
  Now m a h
  = match token_param a h with
    | (Throw e, t) => (Throw e, t)
    | (Ok tok, t) =>
        if negb (truthy tok) then
          (Ok (nothing_usable m), (t ++ [EError no_token])%list)
        else (configure tok, t)
    end.
Proof.
  destruct m; simpl; unfold Now_call, Now_new.
  - destruct (token_param a h) as [[tok|e] t]; reflexivity.
  - destruct (token_param a h) as [[tok|e] t]; [|reflexivity].
    destruct (truthy tok) eqn:Ht; [|reflexivity]. simpl.
    assert (E : token_param tok h = (Ok tok, [])).
    { destruct tok; try reflexivity. discriminate. }
    rewrite E, Ht. simpl. rewrite app_nil_r. reflexivity.
Qed.

(** With a token resolved and its header formed, either call of [Now]
    leaves the configured instance and no event beyond the resolution's. *)
Lemma Now_configured (m : call_mode) (a : value) (h : host) (auth : string) :
  truthy (precedence a h) = true ->
  to_string (precedence a h) = Some auth ->
  Now m a h
  = (Ok (Instance {| token := Some (precedence a h);
                     request := Some (defaults ("Bearer " ++ auth)) |}),
     snd (token_param a h)).
Proof.
  intros Hp Ha.
  destruct (token_param_precedence a h) as [tok [t [E [Ht Hv]]]].
  rewrite Hp in Ht. specialize (Hv Ht). subst tok.
  rewrite Now_unfold, E, Hp. simpl.
  unfold configure, template. rewrite Ha. simpl.
  rewrite append_empty. reflexivity.
Qed.

(** ** The claims *)

(** C1: a failure of the transport other than [undefined] and [null]
    rejects the call with the nested [data.err] when [data] and [data.err]
    are truthy, else with [data] when it is truthy, else with the string
    [err.toString()] gives. *)
Theorem C1_rejection_follows_three_tiers
    (w : world) (this : instance) (opts : options) (config : value)
    (callback : arg) (selector : option string) (err v : value) :
  request this = Some opts ->
  transport w opts config = Settles (Rejected err) ->
  nullish err = false ->
  three_tier err = Some v ->
  fst (handleRequest w this config callback selector) = Ok (Rejected v).
Proof.
  intros Hr Ht Hn Hv. unfold handleRequest. rewrite Hr, Ht.
  pose proof (on_rejected_settles w callback err v
                (normalize_three_tier err v Hn Hv)) as Hs.
  destruct (on_rejected w callback err Pending) as [p t].
  simpl in *. congruence.
Qed.

(** The three tiers at the specification's examples: a nested
    [data.err = {code: "x"}], a [data] of plain text, a bare transport
    exception. *)
Lemma C1_witness :
  fst (handleRequest (Sample.rude (Settles (Rejected Sample.structured)))
         Sample.client (config2 "/now/deployments" "get") (AFun 0)
         (Some "deployments"))
  = Ok (Rejected (VObj [("code", VStr "x")]))
  /\ fst (handleRequest (Sample.spy (Settles (Rejected Sample.plain_text)))
            Sample.client (config2 "/now/deployments" "get") (AFun 0) None)
     = Ok (Rejected (VStr "plain text"))
  /\ fst (handleRequest (Sample.spy (Settles (Rejected Sample.timed_out)))
            Sample.client (config2 "/now/deployments" "get") (AFun 0) None)
     = Ok (Rejected (VStr "RequestError: ETIMEDOUT")).
Proof.
  split; [|split];
    eapply C1_rejection_follows_three_tiers; reflexivity.
Defined.

(** C2: a call of an endpoint method that requires an identifying
    parameter, made with a required parameter absent (falsy), returns a
    promise rejected with the fixed pair of the first absent parameter, and
    calls the transport not once. *)
Theorem C2_missing_parameter_fails_fast
    (w : world) (this : instance) (c : guarded) (callback : arg)
    (k : error_kind) :
  first_missing (required_parameters c) = Some k ->
  fst (invoke w this c callback) = Ok (Rejected (ERROR k))
  /\ requests (snd (invoke w this c callback)) = [].
Proof.
  intros H.
  destruct c; simpl in H; unfold invoke,
    getDeployment, deleteDeployment, getFiles, getFile, createDeployment,
    createAlias, deleteAlias, createSecret, renameSecret, deleteSecret;
  repeat match type of H with
         | context [truthy ?x] => destruct (truthy x); simpl in H |- *
         end;
  try discriminate; inversion H; subst; apply handleError_rejects.
Qed.

Lemma C2_witness :
  fst (invoke (Sample.rude (Settles (Fulfilled VNull))) Sample.client
         (GetFile (VStr "d1") VUndefined) (AFun 0))
  = Ok (Rejected (ERROR MISSING_FILE_ID))
  /\ requests (snd (invoke (Sample.rude (Settles (Fulfilled VNull)))
                      Sample.client (GetFile (VStr "d1") VUndefined) (AFun 0)))
     = [].
Proof.
  apply C2_missing_parameter_fails_fast. reflexivity.
Defined.

(** C3, as the code has it: on a successful response, a call with a
    selector supplied resolves with exactly [responseBody[selector]]
    provided the body is neither [undefined] nor [null]; a call with no
    selector resolves with the whole decoded body unchanged, whatever the
    body. *)
Theorem C3_success_resolves_with_selection
    (w : world) (this : instance) (opts : options) (config : value)
    (callback : arg) (selector : option string) (res : value) :
  request this = Some opts ->
  transport w opts config = Settles (Fulfilled res) ->
  (forall k, supplied selector = Some k -> nullish res = false ->
     fst (handleRequest w this config callback selector)
     = Ok (Fulfilled (field res k)))
  /\ (supplied selector = None ->
      fst (handleRequest w this config callback selector)
      = Ok (Fulfilled res)).
Proof.
  intros Hr Ht. split.
  - intros k Hk Hn.
    apply (fulfilled_with w this opts config callback selector res); trivial.
    rewrite select_supplied, Hk. apply get_field, Hn.
  - intros Hk.
    apply (fulfilled_with w this opts config callback selector res); trivial.
    rewrite select_supplied, Hk. reflexivity.
Qed.

(** The selector strips the envelope [{deployments: [A, B]}], and without
    a selector the envelope comes back whole, also from a callback that
    raises. *)
Lemma C3_witness :
  fst (getDeployments (Sample.spy (Settles (Fulfilled Sample.envelope)))
         Sample.client (AFun 0))
  = Ok (Fulfilled (VArr [VStr "A"; VStr "B"]))
  /\ fst (handleRequest (Sample.rude (Settles (Fulfilled Sample.envelope)))
            Sample.client (config2 "/now/deployments" "get") (AFun 0) None)
     = Ok (Fulfilled Sample.envelope).
Proof.
  split.
  - apply (proj1 (C3_success_resolves_with_selection
                    (Sample.spy (Settles (Fulfilled Sample.envelope)))
                    Sample.client (defaults "Bearer t0k3n")
                    (config2 "/now/deployments" "get") (AFun 0)
                    (Some "deployments") Sample.envelope
                    eq_refl eq_refl) "deployments" eq_refl eq_refl).
  - apply (proj2 (C3_success_resolves_with_selection
                    (Sample.rude (Settles (Fulfilled Sample.envelope)))
                    Sample.client (defaults "Bearer t0k3n")
                    (config2 "/now/deployments" "get") (AFun 0)
                    None Sample.envelope eq_refl eq_refl) eq_refl).
Defined.

(** C3 as stated fails on a successful response with an empty body, which
    the transport decodes to [undefined]: with the selector [deployments]
    the call is rejected, not resolved. *)
Lemma C3_counterexample :
  transport (Sample.spy (Settles (Fulfilled VUndefined)))
            (defaults "Bearer t0k3n") (config2 "/now/deployments" "get")
  = Settles (Fulfilled VUndefined)
  /\ getDeployments (Sample.spy (Settles (Fulfilled VUndefined)))
                    Sample.client (AVal VUndefined)
     = (Ok (Rejected
              (VStr ("TypeError: " ++
                     "Cannot read property 'deployments' of undefined"))),
        [ERequest (defaults "Bearer t0k3n")
                  (config2 "/now/deployments" "get")]).
Proof. split; reflexivity. Qed.

(** C4 fails on [addDomain] called without its [domain] argument: the
    read of [domain.name] raises before any promise exists. *)
Theorem C4_addDomain_raises_without_domain
    (w : world) (this : instance) (callback : arg) :
  addDomain w this VUndefined callback
  = (Throw (VErr "TypeError" "Cannot read property 'name' of undefined" []),
     []).
Proof. reflexivity. Qed.

(** The sibling [deleteDomain] reports the same absence through the
    promise, and so does [addDomain] itself for a [domain] without a
    [name]. *)
Lemma domain_name_missing_rejects
    (w : world) (this : instance) (callback : arg) :
  fst (deleteDomain w this VUndefined callback)
  = Ok (Rejected (ERROR MISSING_NAME))
  /\ fst (addDomain w this (VObj []) callback)
     = Ok (Rejected (ERROR MISSING_NAME)).
Proof. split; apply handleError_rejects. Qed.

(** C5: the pair for a missing [alias] carries the code [missing_body],
    the code of the pair for a missing [body], and a message naming the
    alias parameter; [createAlias] rejects with it when [alias] is absent;
    the other pairs carry the codes [missing_id], [missing_file_id],
    [missing_cn], [missing_name] and [missing_value], and the codes of the
    six kinds other than the alias are pairwise distinct. *)
Theorem C5_alias_pair_reuses_body_code :
  code_of (ERROR MISSING_ALIAS) = VStr "missing_body"
  /\ code_of (ERROR MISSING_ALIAS) = code_of (ERROR MISSING_BODY)
  /\ message_of (ERROR MISSING_ALIAS) = VStr "Missing `alias` parameter"
  /\ (forall w this id alias callback,
        truthy id = true -> truthy alias = false ->
        fst (createAlias w this id alias callback)
        = Ok (Rejected (ERROR MISSING_ALIAS)))
  /\ code_of (ERROR MISSING_ID) = VStr "missing_id"
  /\ code_of (ERROR MISSING_FILE_ID) = VStr "missing_file_id"
  /\ code_of (ERROR MISSING_CN) = VStr "missing_cn"
  /\ code_of (ERROR MISSING_NAME) = VStr "missing_name"
  /\ code_of (ERROR MISSING_VALUE) = VStr "missing_value"
  /\ NoDup (map (fun k => code_of (ERROR k))
                [MISSING_ID; MISSING_FILE_ID; MISSING_BODY; MISSING_CN;
                 MISSING_NAME; MISSING_VALUE]).
Proof.
  repeat split.
  - intros w this id alias callback Hi Ha. unfold createAlias.
    rewrite Hi, Ha. apply handleError_rejects.
  - repeat constructor; simpl; intuition discriminate.
Qed.

Lemma C5_witness :
  fst (createAlias (Sample.spy (Settles Pending)) Sample.client
         (VStr "d1") (VStr "") (AFun 0))
  = Ok (Rejected (VObj [("code", VStr "missing_body");
                        ("message", VStr "Missing `alias` parameter")])).
Proof.
  apply (proj1 (proj2 (proj2 (proj2 C5_alias_pair_reuses_body_code))));
    reflexivity.
Defined.

(** C6: in [getCertificates] a first argument of function type is the
    callback and the request goes to [/now/certs]; a first argument of
    string type [cn] sends the request to [/now/certs/<cn>] with the second
    argument as callback; either way that request is the one the transport
    gets, and a response is unwrapped with the selector [certs] and handed
    to that callback. *)
Theorem C6_getCertificates_dispatch
    (w : world) (this : instance) (opts : options) (cn callback : arg) :
  request this = Some opts ->
  (typeof_arg cn = "function" ->
   exists f,
     cn = AFun f
     /\ getCertificates w this cn callback
        = handleRequest w this (config2 "/now/certs" "get") (AFun f)
                        (Some "certs")
     /\ requests (snd (getCertificates w this cn callback))
        = [ERequest opts (config2 "/now/certs" "get")]
     /\ forall res,
          transport w opts (config2 "/now/certs" "get")
          = Settles (Fulfilled res) ->
          nullish res = false ->
          fst (getCertificates w this cn callback)
          = Ok (Fulfilled (field res "certs"))
          /\ In (ECallback f VUndefined (field res "certs"))
                (snd (getCertificates w this cn callback)))
  /\ (typeof_arg cn = "string" ->
      exists s,
        cn = AVal (VStr s)
        /\ getCertificates w this cn callback
           = handleRequest w this (config2 ("/now/certs/" ++ s) "get")
                           callback (Some "certs")
        /\ requests (snd (getCertificates w this cn callback))
           = [ERequest opts (config2 ("/now/certs/" ++ s) "get")]
        /\ forall res,
             transport w opts (config2 ("/now/certs/" ++ s) "get")
             = Settles (Fulfilled res) ->
             nullish res = false ->
             fst (getCertificates w this cn callback)
             = Ok (Fulfilled (field res "certs"))
             /\ forall g,
                  callback = AFun g ->
                  In (ECallback g VUndefined (field res "certs"))
                     (snd (getCertificates w this cn callback))).
Proof.
  intros Hr. split; intros Ht.
  - destruct cn as [v|f]; [destruct v; discriminate|].
    exists f. unfold getCertificates.
    split; [reflexivity|]. split; [reflexivity|].
    split; [apply handleRequest_one_request, Hr|].
    intros res Hres Hn.
    assert (Hs : select (Some "certs") res = Ok (field res "certs"))
      by (apply get_field, Hn).
    split.
    + apply (fulfilled_with w this opts _ (AFun f) _ res); trivial.
    + apply (callback_gets_data w this opts _ f _ res); trivial.
  - destruct cn as [v|f]; [|discriminate].
    destruct v; try discriminate. exists s. unfold getCertificates.
    split; [reflexivity|]. split; [reflexivity|].
    split; [apply handleRequest_one_request, Hr|].
    intros res Hres Hn.
    assert (Hs : select (Some "certs") res = Ok (field res "certs"))
      by (apply get_field, Hn).
    split.
    + apply (fulfilled_with w this opts _ callback _ res); trivial.
    + intros g ->. apply (callback_gets_data w this opts _ g _ res); trivial.
Qed.

Lemma C6_witness :
  (exists f,
     AFun 3 = AFun f
     /\ getCertificates
          (Sample.spy (Settles (Fulfilled (VObj [("certs", VArr [])]))))
          Sample.client (AFun 3) (AVal VUndefined)
        = handleRequest
            (Sample.spy (Settles (Fulfilled (VObj [("certs", VArr [])]))))
            Sample.client (config2 "/now/certs" "get") (AFun f)
            (Some "certs"))
  /\ exists s,
       AVal (VStr "zeit.co") = AVal (VStr s)
       /\ requests
            (snd (getCertificates
                    (Sample.spy
                       (Settles (Fulfilled (VObj [("certs", VArr [])]))))
                    Sample.client (AVal (VStr "zeit.co")) (AFun 4)))
          = [ERequest (defaults "Bearer t0k3n")
                      (config2 ("/now/certs/" ++ s) "get")].
Proof.
  split.
  - destruct (proj1 (C6_getCertificates_dispatch
                       (Sample.spy (Settles (Fulfilled
                                               (VObj [("certs", VArr [])]))))
                       Sample.client (defaults "Bearer t0k3n")
                       (AFun 3) (AVal VUndefined) eq_refl) eq_refl)
      as [f [E [Hq _]]].
    exists f. split; [exact E | exact Hq].
  - destruct (proj2 (C6_getCertificates_dispatch
                       (Sample.spy (Settles (Fulfilled
                                               (VObj [("certs", VArr [])]))))
                       Sample.client (defaults "Bearer t0k3n")
                       (AVal (VStr "zeit.co")) (AFun 4) eq_refl) eq_refl)
      as [s [E [_ [Hq _]]]].
    exists s. split; [exact E | exact Hq].
Defined.

(** C7: when no credential resolves, a call of [Now], with [new] or
    without, does not raise; its last act is to log the error; it leaves
    [undefined] or the fresh object, on which neither [token] nor [request]
    is set, so that a request on it is rejected before any transport is
    called. *)
Theorem C7_no_credential_no_client (m : call_mode) (a : value) (h : host) :
  truthy (precedence a h) = false ->
  (exists t,
     Now m a h = (Ok (nothing_usable m), (t ++ [EError no_token])%list))
  /\ token bare = None
  /\ request bare = None
  /\ forall w config callback selector,
       handleRequest w bare config callback selector
       = (Ok (Rejected not_a_function), []).
Proof.
  intros Hp. split; [|repeat split].
  rewrite Now_unfold.
  destruct (token_param_precedence a h) as [tok [t [E [Ht _]]]].
  rewrite E, Ht, Hp. simpl. eauto.
Qed.

Lemma C7_witness :
  (exists t,
     Now WithNew VUndefined Sample.empty_host
     = (Ok (Instance bare), (t ++ [EError no_token])%list))
  /\ exists t,
       Now Plain VUndefined Sample.empty_host
       = (Ok NoInstance, (t ++ [EError no_token])%list).
Proof.
  split.
  - apply (C7_no_credential_no_client WithNew VUndefined Sample.empty_host).
    reflexivity.
  - apply (C7_no_credential_no_client Plain VUndefined Sample.empty_host).
    reflexivity.
Defined.

(** C8: an explicit argument is the token and nothing else is looked at;
    without one the variable [NOW_TOKEN] is the token when it holds
    something, and the file is not looked at; without either the [token]
    field of [~/.now.json] is the token; the variable is read only when
    the argument is absent, and the file only when moreover the variable
    yields nothing; and the token so found is the one the instance
    holds. *)
Theorem C8_credential_precedence (a : value) (h : host) :
  (present a = true -> token_param a h = (Ok a, []))
  /\ (present a = false -> truthy (env_token h) = true ->
      token_param a h = (Ok (env_token h), [EEnv "NOW_TOKEN"]))
  /\ (present a = false -> truthy (env_token h) = false ->
      truthy (file_token h) = true ->
      token_param a h
      = (Ok (file_token h), [EEnv "NOW_TOKEN"; ERequire configPath]))
  /\ (In (EEnv "NOW_TOKEN") (snd (token_param a h)) -> present a = false)
  /\ (In (ERequire configPath) (snd (token_param a h)) ->
      present a = false /\ truthy (env_token h) = false)
  /\ (forall m auth,
        truthy (precedence a h) = true ->
        to_string (precedence a h) = Some auth ->
        fst (Now m a h)
        = Ok (Instance {| token := Some (precedence a h);
                          request := Some (defaults ("Bearer " ++ auth)) |})).
Proof.
  split; [|split; [|split; [|split; [|split]]]].
  - destruct a; try reflexivity. discriminate.
  - intros Ha He. destruct a; try discriminate.
    unfold token_param, _getToken. fold (env_token h). rewrite He.
    reflexivity.
  - intros Ha He Hf. destruct a; try discriminate.
    unfold token_param, _getToken. fold (env_token h). rewrite He. simpl.
    unfold file_token, field in *.
    destruct (now_json h) as [md|n msg]; [|discriminate].
    destruct (get md "token"); [reflexivity|discriminate].
  - destruct a; simpl; trivial; contradiction.
  - destruct a; simpl; try contradiction.
    unfold _getToken. fold (env_token h).
    destruct (truthy (env_token h)); simpl.
    + intros [E|[]]. discriminate.
    + auto.
  - intros m auth Hp Ha. rewrite (Now_configured m a h auth Hp Ha).
    reflexivity.
Qed.

Lemma C8_witness :
  token_param (VStr "explicit") Sample.env_host = (Ok (VStr "explicit"), [])
  /\ token_param VUndefined Sample.env_host
     = (Ok (VStr "from-env"), [EEnv "NOW_TOKEN"])
  /\ token_param VUndefined Sample.file_host
     = (Ok (VStr "from-file"), [EEnv "NOW_TOKEN"; ERequire configPath])
  /\ fst (Now WithNew VUndefined Sample.file_host)
     = Ok (Instance {| token := Some (VStr "from-file");
                       request := Some (defaults "Bearer from-file") |}).
Proof.
  pose proof (C8_credential_precedence (VStr "explicit") Sample.env_host)
    as [H1 _].
  pose proof (C8_credential_precedence VUndefined Sample.env_host)
    as [_ [H2 _]].
  pose proof (C8_credential_precedence VUndefined Sample.file_host)
    as [_ [_ [H3 [_ [_ H6]]]]].
  split; [exact (H1 eq_refl)|].
  split; [exact (H2 eq_refl eq_refl)|].
  split; [exact (H3 eq_refl eq_refl eq_refl)|].
  exact (H6 WithNew "from-file" eq_refl eq_refl).
Defined.

(** C9: when a token resolves, [Now] called as a plain function ends as
    [new Now] does, with the same events; where the [Authorization] header
    can be formed, both leave an instance holding that token and the
    transport configured with it. *)
Theorem C9_plain_call_is_new (a : value) (h : host) :
  truthy (precedence a h) = true ->
  Now Plain a h = Now WithNew a h
  /\ forall auth,
       to_string (precedence a h) = Some auth ->
       fst (Now Plain a h)
       = Ok (Instance {| token := Some (precedence a h);
                         request := Some (defaults ("Bearer " ++ auth)) |})
       /\ fst (Now WithNew a h)
          = Ok (Instance {| token := Some (precedence a h);
                            request := Some (defaults ("Bearer " ++ auth)) |}).
Proof.
  intros Hp. split.
  - rewrite !Now_unfold.
    destruct (token_param_precedence a h) as [tok [t [E [Ht _]]]].
    rewrite E, Ht, Hp. reflexivity.
  - intros auth Ha. rewrite !(Now_configured _ a h auth Hp Ha). auto.
Qed.

Lemma C9_witness :
  Now Plain (VStr "t0k3n") Sample.empty_host
  = Now WithNew (VStr "t0k3n") Sample.empty_host
  /\ fst (Now Plain VUndefined Sample.file_host)
     = Ok (Instance {| token := Some (VStr "from-file");
                       request := Some (defaults "Bearer from-file") |}).
Proof.
  split.
  - apply (C9_plain_call_is_new (VStr "t0k3n") Sample.empty_host).
    reflexivity.
  - apply (proj2 (C9_plain_call_is_new VUndefined Sample.file_host eq_refl)
             "from-file" eq_refl).
Defined.

(** C10, as the code has it: when a selector is supplied and the
    successful response body is neither [undefined] nor [null], the call
    is fulfilled, with [undefined] when the body has no field of that
    name. *)
Theorem C10_absent_field_still_fulfils
    (w : world) (this : instance) (opts : options) (config : value)
    (callback : arg) (k : string) (res : value) :
  request this = Some opts ->
  transport w opts config = Settles (Fulfilled res) ->
  k <> "" ->
  nullish res = false ->
  (has_property res k = false ->
   fst (handleRequest w this config callback (Some k))
   = Ok (Fulfilled VUndefined))
  /\ exists v,
       fst (handleRequest w this config callback (Some k)) = Ok (Fulfilled v).
Proof.
  intros Hr Ht Hk Hn.
  assert (Hs : supplied (Some k) = Some k).
  { simpl. destruct (String.eqb_spec k ""); congruence. }
  assert (H : fst (handleRequest w this config callback (Some k))
              = Ok (Fulfilled (field res k))).
  { apply (fulfilled_with w this opts config callback (Some k) res); trivial.
    rewrite select_supplied, Hs. apply get_field, Hn. }
  split.
  - intros Ha. rewrite H, (absent_field res k Ha). reflexivity.
  - eauto.
Qed.

Lemma C10_witness :
  has_property Sample.envelope "secrets" = false
  /\ fst (handleRequest (Sample.rude (Settles (Fulfilled Sample.envelope)))
            Sample.client (config2 "/now/secrets" "get") (AFun 0)
            (Some "secrets"))
     = Ok (Fulfilled VUndefined).
Proof.
  split; [reflexivity|].
  apply (C10_absent_field_still_fulfils
           (Sample.rude (Settles (Fulfilled Sample.envelope)))
           Sample.client (defaults "Bearer t0k3n")
           (config2 "/now/secrets" "get") (AFun 0) "secrets" Sample.envelope);
    [reflexivity | reflexivity | discriminate | reflexivity | reflexivity].
Defined.

(** C10 as stated fails on a successful response whose body is the JSON
    [null]: it has no field [certs], and the lookup turns the response
    into a rejection, handed to the callback as an error. *)
Lemma C10_counterexample :
  has_property VNull "certs" = false
  /\ getCertificates (Sample.spy (Settles (Fulfilled VNull))) Sample.client
                     (AFun 7) (AVal VUndefined)
     = (Ok (Rejected
              (VStr "TypeError: Cannot read property 'certs' of null")),
        [ERequest (defaults "Bearer t0k3n") (config2 "/now/certs" "get");
         ECallback 7
           (VStr "TypeError: Cannot read property 'certs' of null")
           VUndefined]).
Proof. split; reflexivity. Qed.

(** ** Further properties of the pipeline *)

Section Promise.

Variable w : world.

Lemma on_rejected_promise (callback : arg) (err : value) (p : settle) :
  fst (on_rejected w callback err p)
  = match normalize err with
    | Ok v => reject p v
    | Throw _ => p
    end.
Proof.
  unfold on_rejected. destruct (normalize err) as [v|x]; trivial.
  destruct (handleCallback w callback v VUndefined). reflexivity.
Qed.

(** The promise of [handleRequest] is the promise of the handlers without
    their callback calls. *)
Lemma handleRequest_promise (this : instance) (config : value)
    (callback : arg) (selector : option string) :
  fst (handleRequest w this config callback selector)
  = fst (Legacy.handleRequest w this config selector).
Proof.
  unfold handleRequest, Legacy.handleRequest.
  destruct (request this) as [opts|]; trivial.
  destruct (transport w opts config) as [e|[|res|err]]; trivial.
  - unfold on_fulfilled. destruct (select selector res) as [d|e].
    + destruct (handleCallback w callback VUndefined d) as [[u|e] t];
        trivial.
      change (resolve Pending d) with (Fulfilled d).
      pose proof (on_rejected_keeps w callback e d) as Hk.
      destruct (on_rejected w callback e (Fulfilled d)). simpl in *.
      congruence.
    + pose proof (on_rejected_promise callback e Pending) as Hp.
      destruct (on_rejected w callback e Pending). simpl in *. rewrite Hp.
      destruct (normalize e); reflexivity.
  - pose proof (on_rejected_promise callback err Pending) as Hp.
    destruct (on_rejected w callback err Pending). simpl in *. rewrite Hp.
    destruct (normalize err); reflexivity.
Qed.

Lemma handleError_promise (err : value) (callback : arg) :
  fst (handleError w err callback) = Ok (Rejected err).
Proof. apply handleError_rejects. Qed.

End Promise.

(** X2: the callback-aware pipeline keeps the promise of the earlier
    promise-only [handleRequest] and [handleError], makes the same
    transport calls, and with no function as callback is the earlier
    pipeline event for event. *)
Theorem callbacks_keep_the_earlier_promise
    (w : world) (this : instance) (config err : value) (callback : arg)
    (selector : option string) :
  fst (handleRequest w this config callback selector)
  = fst (Legacy.handleRequest w this config selector)
  /\ requests (snd (handleRequest w this config callback selector))
     = snd (Legacy.handleRequest w this config selector)
  /\ (forall v,
        handleRequest w this config (AVal v) selector
        = Legacy.handleRequest w this config selector)
  /\ fst (handleError w err callback) = fst (Legacy.handleError err)
  /\ (forall v, handleError w err (AVal v) = Legacy.handleError err).
Proof.
  split; [apply handleRequest_promise|].
  split; [|split; [|split; [apply handleError_promise|reflexivity]]].
  - destruct (request this) as [opts|] eqn:Hr.
    + rewrite (handleRequest_one_request w this opts); trivial.
      unfold Legacy.handleRequest. rewrite Hr.
      destruct (transport w opts config) as [e|[|res|e]]; trivial.
      * destruct (select selector res); trivial.
        destruct (normalize e); reflexivity.
      * destruct (normalize e); reflexivity.
    + unfold handleRequest, Legacy.handleRequest. rewrite Hr. reflexivity.
  - intros v. unfold handleRequest, Legacy.handleRequest.
    destruct (request this) as [opts|]; trivial.
    destruct (transport w opts config) as [e|[|res|e]]; trivial.
    + unfold on_fulfilled. destruct (select selector res) as [d|x]; trivial.
      unfold on_rejected. destruct (normalize x); reflexivity.
    + unfold on_rejected. destruct (normalize e); reflexivity.
Qed.



(** X4: a callback that raises when told of a success is called a second
    time, with what it raised, normalized, as the error; the promise stays
    fulfilled with the data. *)
Theorem raising_callback_is_called_again
    (w : world) (this : instance) (opts : options) (config : value)
    (f : nat) (selector : option string) (res d e v : value) :
  request this = Some opts ->
  transport w opts config = Settles (Fulfilled res) ->
  select selector res = Ok d ->
  callback_raises w f VUndefined d = Some e ->
  normalize e = Ok v ->
  handleRequest w this config (AFun f) selector
  = (Ok (Fulfilled d),
     [ERequest opts config; ECallback f VUndefined d;
      ECallback f v VUndefined]).
Proof.
  intros Hr Ht Hs Hc Hn. unfold handleRequest, on_fulfilled, on_rejected.
  rewrite Hr, Ht, Hs. simpl. rewrite Hc, Hn. reflexivity.
Qed.

Lemma raising_callback_is_called_again_witness :
  getDeployments (Sample.rude (Settles (Fulfilled Sample.envelope)))
                 Sample.client (AFun 5)
  = (Ok (Fulfilled (VArr [VStr "A"; VStr "B"])),
     [ERequest (defaults "Bearer t0k3n") (config2 "/now/deployments" "get");
      ECallback 5 VUndefined (VArr [VStr "A"; VStr "B"]);
      ECallback 5 (VStr "boom") VUndefined]).
Proof.
  apply (raising_callback_is_called_again
           (Sample.rude (Settles (Fulfilled Sample.envelope)))
           Sample.client (defaults "Bearer t0k3n")
           (config2 "/now/deployments" "get") 5 (Some "deployments")
           Sample.envelope (VArr [VStr "A"; VStr "B"]) (VStr "boom")
           (VStr "boom")); reflexivity.
Defined.

(** X5: a transport failure that is [undefined] or [null], or one with no
    truthy [data] whose [toString] is shadowed by a data property, makes
    the [catch] handler raise: the promise never settles and the callback
    is never called. *)
Theorem unreadable_failure_never_settles
    (w : world) (this : instance) (opts : options) (config : value)
    (callback : arg) (selector : option string) (err : value) :
  request this = Some opts ->
  transport w opts config = Settles (Rejected err) ->
  nullish err = true
  \/ (truthy (field err "data") = false /\ to_string err = None) ->
  handleRequest w this config callback selector
  = (Ok Pending, [ERequest opts config]).
Proof.
  intros Hr Ht Hc. unfold handleRequest, on_rejected. rewrite Hr, Ht.
  assert (Hn : exists x, normalize err = Throw x).
  { destruct Hc as [Hn|[Hd Hs]].
    - destruct err; try discriminate; eexists; reflexivity.
    - destruct (nullish err) eqn:Hn.
      + destruct err; try discriminate; eexists; reflexivity.
      + unfold normalize. rewrite (get_field err "data" Hn). cbn [bind].
        rewrite Hd. cbn [bind].
        destruct err; try discriminate; unfold call_toString;
          rewrite Hs; eexists; reflexivity. }
  destruct Hn as [x ->]. reflexivity.
Qed.

Lemma unreadable_failure_never_settles_witness :
  handleRequest (Sample.rude (Settles (Rejected VUndefined))) Sample.client
                (config2 "/now/secrets" "get") (AFun 1) (Some "secrets")
  = (Ok Pending,
     [ERequest (defaults "Bearer t0k3n") (config2 "/now/secrets" "get")])
  /\ handleRequest
       (Sample.spy (Settles (Rejected (VObj [("toString", VNum 1)]))))
       Sample.client (config2 "/now/secrets" "get") (AFun 1) None
     = (Ok Pending,
        [ERequest (defaults "Bearer t0k3n") (config2 "/now/secrets" "get")]).
Proof.
  split.
  - apply (unreadable_failure_never_settles
             (Sample.rude (Settles (Rejected VUndefined))) Sample.client
             (defaults "Bearer t0k3n") _ _ _ VUndefined eq_refl eq_refl).
    left. reflexivity.
  - apply (unreadable_failure_never_settles
             (Sample.spy (Settles (Rejected (VObj [("toString", VNum 1)]))))
             Sample.client (defaults "Bearer t0k3n") _ _ _
             (VObj [("toString", VNum 1)]) eq_refl eq_refl).
    right. split; reflexivity.
Defined.

(** X6: with a selector supplied, a successful response whose body is
    [undefined] or [null] rejects the call with a string, the string form
    of the [TypeError] of the lookup, and a callback is told that string
    as its error. *)
Theorem selector_on_missing_body_rejects
    (w : world) (this : instance) (opts : options) (config : value)
    (f : nat) (selector : option string) (k : string) (res : value) :
  request this = Some opts ->
  transport w opts config = Settles (Fulfilled res) ->
  supplied selector = Some k ->
  nullish res = true ->
  exists s,
    to_string (cannot_read res k) = Some s
    /\ handleRequest w this config (AFun f) selector
       = (Ok (Rejected (VStr s)),
          [ERequest opts config; ECallback f (VStr s) VUndefined]).
Proof.
  intros Hr Ht Hk Hn. unfold handleRequest, on_fulfilled, on_rejected.
  rewrite Hr, Ht, select_supplied, Hk.
  destruct res; try discriminate; simpl;
    eexists; split; reflexivity.
Qed.

Lemma selector_on_missing_body_rejects_witness :
  exists s,
    to_string (cannot_read VNull "aliases") = Some s
    /\ handleRequest (Sample.rude (Settles (Fulfilled VNull))) Sample.client
                     (config2 "/now/aliases" "get") (AFun 2) (Some "aliases")
       = (Ok (Rejected (VStr s)),
          [ERequest (defaults "Bearer t0k3n") (config2 "/now/aliases" "get");
           ECallback 2 (VStr s) VUndefined]).
Proof.
  apply (selector_on_missing_body_rejects
           (Sample.rude (Settles (Fulfilled VNull))) Sample.client
           (defaults "Bearer t0k3n") (config2 "/now/aliases" "get") 2
           (Some "aliases") "aliases" VNull); reflexivity.
Defined.

(** X7: the value a failure is normalized to is truthy, so that a
    callback testing its first argument sees the error, unless the failure
    carries no truthy [data] and its string form is the empty string; the
    value is then the empty string. *)
Theorem falsy_errData_is_the_empty_string (err v : value) :
  normalize err = Ok v ->
  truthy v = false ->
  v = VStr "" /\ truthy (field err "data") = false
  /\ to_string err = Some "".
Proof.
  intros Hn Hv.
  destruct (nullish err) eqn:Hnull.
  { destruct err; discriminate. }
  unfold normalize in Hn. rewrite (get_field err "data" Hnull) in Hn.
  cbn [bind] in Hn.
  destruct (truthy (field err "data")) eqn:Hd.
  - rewrite (get_field _ "err" (truthy_not_nullish _ Hd)) in Hn.
    cbn [bind] in Hn.
    destruct (truthy (field (field err "data") "err")) eqn:He;
      cbn [bind] in Hn.
    + inversion Hn; subst. congruence.
    + inversion Hn; subst. congruence.
  - cbn [bind] in Hn.
    destruct err; try discriminate; unfold call_toString in Hn;
      destruct (to_string _) as [str|] eqn:Hs; try discriminate;
      inversion Hn; subst; simpl in Hv;
      destruct (String.eqb_spec str ""); try discriminate; subst; auto.
Qed.

Lemma falsy_errData_is_the_empty_string_witness :
  VStr "" = VStr ""
  /\ truthy (field (VErr "" "" []) "data") = false
  /\ to_string (VErr "" "" []) = Some "".
Proof.
  apply (falsy_errData_is_the_empty_string (VErr "" "" []) (VStr ""));
    reflexivity.
Defined.

(** ** Every method at once *)

Lemma template_raises (p : string) (v : value) (s : string) (e : value) :
  template p v s = Throw e -> e = not_a_string.
Proof.
  unfold template. destruct (to_string v); congruence.
Qed.

Lemma get_raises_nullish (v : value) (k : string) (e : value) :
  get v k = Throw e -> nullish v = true.
Proof.
  intros H. destruct (nullish v) eqn:Hn; trivial.
  destruct (get_defined v k Hn) as [x Hx]. congruence.
Qed.

(** What a method comes down to, whatever callback it is given: an
    exception before any promise, a call of [handleError], or a call of
    [handleRequest]; [pick] says which argument serves as callback. *)
Lemma perform_shape (w : world) (this : instance) (op : Api.operation) :
  (exists e,
     (forall cb, Api.perform w this op cb = (Throw e, []))
     /\ (e = not_a_string
         \/ exists d, op = Api.OAddDomain d /\ nullish d = true))
  \/ (exists k pick,
        forall cb,
          Api.perform w this op cb = handleError w (ERROR k) (pick cb))
  \/ (exists config sel pick,
        forall cb,
          Api.perform w this op cb
          = handleRequest w this config (pick cb) sel).
Proof.
  set (shape := fun r : arg -> run =>
         (exists e,
            (forall cb, r cb = (Throw e, []))
            /\ (e = not_a_string
                \/ exists d, op = Api.OAddDomain d /\ nullish d = true))
         \/ (exists k pick,
               forall cb, r cb = handleError w (ERROR k) (pick cb))
         \/ (exists config sel pick,
               forall cb, r cb = handleRequest w this config (pick cb) sel)).
  change (shape (Api.perform w this op)).
  assert (Hreq : forall config sel (pick : arg -> arg) (r : arg -> run),
             (forall cb, r cb = handleRequest w this config (pick cb) sel) ->
             shape r).
  { intros config sel pick r H. right. right. eauto. }
  assert (Herr : forall k (pick : arg -> arg) (r : arg -> run),
             (forall cb, r cb = handleError w (ERROR k) (pick cb)) ->
             shape r).
  { intros k pick r H. right. left. eauto. }
  assert (Hthrow : forall e (r : arg -> run),
             (forall cb, r cb = (Throw e, [])) ->
             (e = not_a_string
              \/ exists d, op = Api.OAddDomain d /\ nullish d = true) ->
             shape r).
  { intros e r H C. left. eauto. }
  clearbody shape.
  destruct op; unfold Api.perform,
    getDeployments, getDeployment, createDeployment, deleteDeployment,
    getFiles, getFile, getDomains, addDomain, deleteDomain,
    getDomainRecords, addDomainRecord, deleteDomainRecord, getCertificates,
    createCertificate, renewCertificate, replaceCertificate,
    deleteCertificate, getAliases, createAlias, deleteAlias, getSecrets,
    createSecret, renameSecret, deleteSecret;
  repeat match goal with
         | |- context [truthy ?x] => destruct (truthy x); cbn [negb]
         | |- context [typeof ?x =? "string"] =>
             destruct (typeof x =? "string"); cbn [negb]
         | |- context [template ?a ?b ?c] =>
             let E := fresh "E" in
             destruct (template a b c) eqn:E; cbn [bind sync];
             [|apply template_raises in E; subst]
         | |- context [get ?a ?b] =>
             let E := fresh "E" in
             destruct (get a b) eqn:E; cbn [bind sync];
             [|apply get_raises_nullish in E]
         | |- context [match ?c with AVal _ => _ | AFun _ => _ end] =>
             destruct c as [[]|]
         end;
  first [ eapply Hreq; intros cb; reflexivity
        | eapply Herr; intros cb; reflexivity
        | eapply Hthrow; [intros cb; reflexivity | eauto] ].
Qed.

Section Counts.

Variable w : world.

Lemma handleCallback_calls (callback : arg) (err data : value) :
  List.length (callbacks (snd (handleCallback w callback err data))) <= 1.
Proof. destruct callback; simpl; lia. Qed.

Lemma handleError_calls (err : value) (callback : arg) :
  List.length (callbacks (snd (handleError w err callback))) <= 1.
Proof.
  unfold handleError.
  pose proof (handleCallback_calls callback err VUndefined) as H.
  destruct (handleCallback w callback err VUndefined). exact H.
Qed.

Lemma on_rejected_calls (callback : arg) (err : value) (p : settle) :
  List.length (callbacks (snd (on_rejected w callback err p))) <= 1.
Proof.
  unfold on_rejected. destruct (normalize err) as [v|x]; simpl; [|lia].
  pose proof (handleCallback_calls callback v VUndefined) as H.
  destruct (handleCallback w callback v VUndefined). exact H.
Qed.

Lemma on_fulfilled_calls (callback : arg) (selector : option string)
    (res : value) (p : settle) :
  List.length (callbacks (snd (on_fulfilled w callback selector res p))) <= 1.
Proof.
  unfold on_fulfilled. destruct (select selector res) as [d|x]; simpl; [|lia].
  pose proof (handleCallback_calls callback VUndefined d) as H.
  destruct (handleCallback w callback VUndefined d). exact H.
Qed.

Lemma handleRequest_calls (this : instance) (config : value)
    (callback : arg) (selector : option string) :
  List.length (callbacks (snd (handleRequest w this config callback selector)))
  <= 2.
Proof.
  unfold handleRequest. destruct (request this) as [opts|]; simpl; [|lia].
  destruct (transport w opts config) as [e|[|res|err]]; simpl; try lia.
  - pose proof (on_fulfilled_calls callback selector res Pending) as H1.
    destruct (on_fulfilled w callback selector res Pending) as [[p [u|e]] t].
    + simpl in *. lia.
    + pose proof (on_rejected_calls callback e p) as H2.
      destruct (on_rejected w callback e p) as [p' t'].
      simpl in *. unfold callbacks in *. rewrite filter_app, length_app. lia.
  - pose proof (on_rejected_calls callback err Pending) as H2.
    destruct (on_rejected w callback err Pending) as [p t]. simpl in *. lia.
Qed.

Lemma handleRequest_requests_le (this : instance) (config : value)
    (callback : arg) (selector : option string) :
  List.length (requests (snd (handleRequest w this config callback selector)))
  <= 1.
Proof.
  destruct (request this) as [opts|] eqn:Hr.
  - rewrite (handleRequest_one_request w this opts); trivial.
  - unfold handleRequest. rewrite Hr. simpl. lia.
Qed.

End Counts.

(** X1: what the promise of a method comes to does not depend on the
    callback handed in: be it absent, a function that returns or one that
    raises, [handleRequest], [handleError] and every method of the
    prototype settle, or raise, the same way. *)
Theorem promise_ignores_callback
    (w : world) (this : instance) (config err : value) (cb1 cb2 : arg)
    (selector : option string) (op : Api.operation) :
  fst (handleRequest w this config cb1 selector)
  = fst (handleRequest w this config cb2 selector)
  /\ fst (handleError w err cb1) = fst (handleError w err cb2)
  /\ fst (Api.perform w this op cb1) = fst (Api.perform w this op cb2).
Proof.
  split; [rewrite !handleRequest_promise; reflexivity|].
  split; [rewrite !handleError_promise; reflexivity|].
  destruct (perform_shape w this op)
    as [[e [H _]]|[[k [pick H]]|[config' [sel [pick H]]]]];
    rewrite !H; trivial.
  - rewrite !handleError_promise. reflexivity.
  - rewrite !handleRequest_promise. reflexivity.
Qed.

(** X8: a call of a method makes at most one call of the transport and
    at most two calls of a callback. *)
Theorem one_request_two_callbacks_at_most
    (w : world) (this : instance) (op : Api.operation) (callback : arg) :
  List.length (requests (snd (Api.perform w this op callback))) <= 1
  /\ List.length (callbacks (snd (Api.perform w this op callback))) <= 2.
Proof.
  destruct (perform_shape w this op)
    as [[e [H _]]|[[k [pick H]]|[config [sel [pick H]]]]];
    rewrite H.
  - simpl. lia.
  - destruct (handleError_rejects w (ERROR k) (pick callback)) as [_ ->].
    pose proof (handleError_calls w (ERROR k) (pick callback)).
    simpl. lia.
  - split; [apply handleRequest_requests_le|apply handleRequest_calls].
Qed.

(** X9: on the object [new Now()] leaves when no token is found, no
    method reaches a transport and no method's promise is fulfilled or
    left pending: each call raises or is rejected. *)
Theorem bare_instance_never_succeeds
    (w : world) (op : Api.operation) (callback : arg) :
  requests (snd (Api.perform w bare op callback)) = []
  /\ match fst (Api.perform w bare op callback) with
     | Ok (Rejected _) | Throw _ => True
     | Ok (Fulfilled _) | Ok Pending => False
     end.
Proof.
  destruct (perform_shape w bare op)
    as [[e [H _]]|[[k [pick H]]|[config [sel [pick H]]]]];
    rewrite H.
  - split; exact I || reflexivity.
  - destruct (handleError_rejects w (ERROR k) (pick callback)) as [-> ->].
    split; [reflexivity|exact I].
  - split; [reflexivity|exact I].
Qed.

Lemma handleRequest_returns (w : world) (this : instance) (config : value)
    (callback : arg) (selector : option string) :
  exists p, fst (handleRequest w this config callback selector) = Ok p.
Proof.
  rewrite handleRequest_promise. unfold Legacy.handleRequest.
  destruct (request this) as [opts|]; [|simpl; eauto].
  destruct (transport w opts config) as [e|[|res|e]]; simpl; eauto.
  - destruct (select selector res) as [d|x]; simpl; eauto.
    destruct (normalize x); simpl; eauto.
  - destruct (normalize e); simpl; eauto.
Qed.

(** X10: a method raises, instead of returning a promise, in two cases
    only: [addDomain] given [undefined] or [null] for its [domain], which
    raises the [TypeError] of the read of [domain.name]; and an argument
    that goes into a URL and has no string form. *)
Theorem methods_raise_only_type_errors
    (w : world) (this : instance) (op : Api.operation) (callback : arg)
    (e : value) :
  fst (Api.perform w this op callback) = Throw e ->
  e = not_a_string
  \/ exists d,
       op = Api.OAddDomain d /\ nullish d = true
       /\ e = cannot_read d "name".
Proof.
  intros He.
  destruct (perform_shape w this op)
    as [[e' [H C]]|[[k [pick H]]|[config [sel [pick H]]]]];
    rewrite H in He.
  - simpl in He. inversion He; subst e'.
    destruct C as [C|[d [Hop Hd]]]; [left; exact C|].
    subst op. simpl in H. specialize (H callback).
    destruct d; try discriminate; inversion H; eauto 6.
  - rewrite handleError_promise in He. discriminate.
  - destruct (handleRequest_returns w this config (pick callback) sel)
      as [p Hp]. congruence.
Qed.

Lemma methods_raise_only_type_errors_witness :
  (VErr "TypeError" "Cannot convert object to primitive value" []
   = not_a_string
   \/ exists d,
        Api.OGetDeployment (VObj [("toString", VNum 1)]) = Api.OAddDomain d
        /\ nullish d = true
        /\ VErr "TypeError" "Cannot convert object to primitive value" []
           = cannot_read d "name")
  /\ (cannot_read VNull "name" = not_a_string
      \/ exists d,
           Api.OAddDomain VNull = Api.OAddDomain d
           /\ nullish d = true
           /\ cannot_read VNull "name" = cannot_read d "name").
Proof.
  split.
  - apply (methods_raise_only_type_errors
             (Sample.spy (Settles Pending)) Sample.client
             (Api.OGetDeployment (VObj [("toString", VNum 1)]))
             (AVal VUndefined)).
    reflexivity.
  - apply (methods_raise_only_type_errors
             (Sample.spy (Settles Pending)) Sample.client
             (Api.OAddDomain VNull) (AVal VUndefined)).
    reflexivity.
Defined.

(** ** The methods that check an argument by its type *)

Lemma not_string_arg (a : arg) :
  typeof_arg a <> "string" ->
  match a with
  | AVal (VStr _) => False
  | _ => True
  end.
Proof. destruct a as [[]|]; simpl; trivial. intros H. apply H. reflexivity. Qed.

(** X11: [deleteDomain] given a [name] that is not a string, [addDomain]
    given a [domain] whose [name] is not a string, and [createCertificate],
    [renewCertificate] and [deleteCertificate] given a [cn] that is not a
    string are rejected with the fixed pair for the name or the common
    name, and call no transport. *)
Theorem type_checked_parameter_fails_fast
    (w : world) (this : instance) (callback : arg) :
  (forall name,
     typeof name <> "string" ->
     fst (deleteDomain w this name callback)
     = Ok (Rejected (ERROR MISSING_NAME))
     /\ requests (snd (deleteDomain w this name callback)) = [])
  /\ (forall domain,
        nullish domain = false ->
        typeof (field domain "name") <> "string" ->
        fst (addDomain w this domain callback)
        = Ok (Rejected (ERROR MISSING_NAME))
        /\ requests (snd (addDomain w this domain callback)) = [])
  /\ (forall cn,
        typeof_arg cn <> "string" ->
        (fst (createCertificate w this cn callback)
         = Ok (Rejected (ERROR MISSING_CN))
         /\ requests (snd (createCertificate w this cn callback)) = [])
        /\ (fst (renewCertificate w this cn callback)
            = Ok (Rejected (ERROR MISSING_CN))
            /\ requests (snd (renewCertificate w this cn callback)) = [])
        /\ (fst (deleteCertificate w this cn callback)
            = Ok (Rejected (ERROR MISSING_CN))
            /\ requests (snd (deleteCertificate w this cn callback)) = [])).
Proof.
  split; [|split].
  - intros name Hn. unfold deleteDomain.
    destruct (String.eqb_spec (typeof name) "string"); [contradiction|].
    apply handleError_rejects.
  - intros domain Hd Hn. unfold addDomain.
    rewrite (get_field domain "name" Hd). cbn [bind].
    destruct (String.eqb_spec (typeof (field domain "name")) "string");
      [contradiction|].
    apply handleError_rejects.
  - intros cn Hc. apply not_string_arg in Hc.
    unfold createCertificate, renewCertificate, deleteCertificate.
    destruct cn as [[]|]; try contradiction;
      repeat split; apply handleError_rejects.
Qed.

Lemma type_checked_parameter_fails_fast_witness :
  fst (deleteDomain (Sample.spy (Settles Pending)) Sample.client
         (VNum 7) (AFun 0))
  = Ok (Rejected (ERROR MISSING_NAME))
  /\ fst (addDomain (Sample.spy (Settles Pending)) Sample.client
            (VStr "zeit.co") (AFun 0))
     = Ok (Rejected (ERROR MISSING_NAME))
  /\ fst (deleteCertificate (Sample.spy (Settles Pending)) Sample.client
            (AVal VUndefined) (AFun 0))
     = Ok (Rejected (ERROR MISSING_CN)).
Proof.
  pose proof (type_checked_parameter_fails_fast
                (Sample.spy (Settles Pending)) Sample.client (AFun 0))
    as [H1 [H2 H3]].
  split; [|split].
  - apply (H1 (VNum 7)). discriminate.
  - apply (H2 (VStr "zeit.co")); [reflexivity|discriminate].
  - apply (H3 (AVal VUndefined)). discriminate.
Defined.

(** X12: when [cn] is not a string, [createCertificate],
    [renewCertificate] and [deleteCertificate] hand [cn] itself to
    [handleError] as the callback: the callback of the call is never
    called, and a [cn] that is a function is called with the error. *)
Theorem missing_cn_is_told_to_cn
    (w : world) (this : instance) (cn callback : arg) :
  typeof_arg cn <> "string" ->
  snd (createCertificate w this cn callback)
  = match cn with
    | AFun f => [ECallback f (ERROR MISSING_CN) VUndefined]
    | AVal _ => []
    end
  /\ snd (renewCertificate w this cn callback)
     = snd (createCertificate w this cn callback)
  /\ snd (deleteCertificate w this cn callback)
     = snd (createCertificate w this cn callback).
Proof.
  intros Hc. apply not_string_arg in Hc.
  unfold createCertificate, renewCertificate, deleteCertificate, handleError.
  destruct cn as [[]|f]; try contradiction; simpl; auto.
Qed.

Lemma missing_cn_is_told_to_cn_witness :
  snd (createCertificate (Sample.spy (Settles Pending)) Sample.client
         (AVal VUndefined) (AFun 9))
  = []
  /\ snd (createCertificate (Sample.spy (Settles Pending)) Sample.client
            (AFun 8) (AFun 9))
     = [ECallback 8 (ERROR MISSING_CN) VUndefined].
Proof.
  split.
  - apply (missing_cn_is_told_to_cn (Sample.spy (Settles Pending))
             Sample.client (AVal VUndefined) (AFun 9)).
    discriminate.
  - apply (missing_cn_is_told_to_cn (Sample.spy (Settles Pending))
             Sample.client (AFun 8) (AFun 9)).
    discriminate.
Defined.

Lemma append_assoc (a b c : string) : (a ++ b) ++ c = a ++ (b ++ c).
Proof. induction a as [|x a IH]; simpl; congruence. Qed.

Lemma template_string (p : string) (v : value) (s t : string) :
  to_string v = Some s -> template p v t = Ok (p ++ s ++ t).
Proof. intros H. unfold template. rewrite H. reflexivity. Qed.

(** X13: [replaceCertificate] checks none of its arguments: on an
    instance with a transport it makes exactly one request, a [put] to
    [/now/certs] whose body carries [cn], [cert] and [key] as given and
    [ca] when it is a string, the empty string otherwise; with a function
    for [ca] the fifth argument is never used; the response is unwrapped
    with the selector [created]. *)
Theorem replaceCertificate_checks_nothing
    (w : world) (this : instance) (opts : options) (cn cert key : value)
    (ca callback : arg) :
  request this = Some opts ->
  requests (snd (replaceCertificate w this cn cert key ca callback))
  = [ERequest opts
       (config3 "/now/certs" "put"
          (VObj [("domains", VArr [cn]);
                 ("ca", VStr match ca with
                             | AVal (VStr s) => s
                             | _ => ""
                             end);
                 ("cert", cert); ("key", key)]))]
  /\ (typeof_arg ca = "function" ->
      forall other,
        replaceCertificate w this cn cert key ca other
        = replaceCertificate w this cn cert key ca callback)
  /\ (forall res,
        transport w opts
          (config3 "/now/certs" "put"
             (VObj [("domains", VArr [cn]);
                    ("ca", VStr match ca with
                                | AVal (VStr s) => s
                                | _ => ""
                                end);
                    ("cert", cert); ("key", key)]))
        = Settles (Fulfilled res) ->
        nullish res = false ->
        fst (replaceCertificate w this cn cert key ca callback)
        = Ok (Fulfilled (field res "created"))).
Proof.
  intros Hr. unfold replaceCertificate. split; [|split].
  - destruct ca as [[]|]; apply handleRequest_one_request, Hr.
  - intros Hf other. destruct ca as [[]|]; try discriminate. reflexivity.
  - intros res Ht Hn.
    destruct ca as [[]|];
      eapply fulfilled_with; eauto; apply get_field, Hn.
Qed.

Lemma replaceCertificate_checks_nothing_witness :
  requests (snd (replaceCertificate (Sample.spy (Settles Pending))
                   Sample.client VUndefined VUndefined VUndefined
                   (AFun 1) (AFun 2)))
  = [ERequest (defaults "Bearer t0k3n")
       (config3 "/now/certs" "put"
          (VObj [("domains", VArr [VUndefined]); ("ca", VStr "");
                 ("cert", VUndefined); ("key", VUndefined)]))].
Proof.
  apply (replaceCertificate_checks_nothing
           (Sample.spy (Settles Pending)) Sample.client
           (defaults "Bearer t0k3n") VUndefined VUndefined VUndefined
           (AFun 1) (AFun 2) eq_refl).
Defined.

(** X14: in [getAliases] a first argument of function type is the
    callback and the request lists all aliases at [/now/aliases]; a first
    argument of string type, the empty string included, sends the request
    to [/now/deployments/<id>/aliases] with the second argument as
    callback; the response is unwrapped with the selector [aliases]. *)
Theorem getAliases_dispatch
    (w : world) (this : instance) (opts : options) (id callback : arg) :
  request this = Some opts ->
  (typeof_arg id = "function" ->
   exists f,
     id = AFun f
     /\ getAliases w this id callback
        = handleRequest w this (config2 "/now/aliases" "get") (AFun f)
                        (Some "aliases")
     /\ requests (snd (getAliases w this id callback))
        = [ERequest opts (config2 "/now/aliases" "get")])
  /\ (typeof_arg id = "string" ->
      exists s,
        id = AVal (VStr s)
        /\ getAliases w this id callback
           = handleRequest w this
               (config2 ("/now/deployments/" ++ s ++ "/aliases") "get")
               callback (Some "aliases")
        /\ requests (snd (getAliases w this id callback))
           = [ERequest opts
                (config2 ("/now/deployments/" ++ s ++ "/aliases") "get")]).
Proof.
  intros Hr. split; intros Ht.
  - destruct id as [v|f]; [destruct v; discriminate|].
    exists f. unfold getAliases.
    split; [reflexivity|]. split; [reflexivity|].
    apply handleRequest_one_request, Hr.
  - destruct id as [v|f]; [|discriminate].
    destruct v; try discriminate. exists s. unfold getAliases.
    split; [reflexivity|]. split; [reflexivity|].
    apply handleRequest_one_request, Hr.
Qed.

Lemma getAliases_dispatch_witness :
  (exists f,
     AFun 3 = AFun f
     /\ requests (snd (getAliases (Sample.spy (Settles Pending))
                         Sample.client (AFun 3) (AVal VUndefined)))
        = [ERequest (defaults "Bearer t0k3n")
             (config2 "/now/aliases" "get")])
  /\ exists s,
       AVal (VStr "") = AVal (VStr s)
       /\ requests (snd (getAliases (Sample.spy (Settles Pending))
                           Sample.client (AVal (VStr "")) (AFun 4)))
          = [ERequest (defaults "Bearer t0k3n")
               (config2 ("/now/deployments/" ++ s ++ "/aliases") "get")].
Proof.
  split.
  - destruct (proj1 (getAliases_dispatch (Sample.spy (Settles Pending))
                       Sample.client (defaults "Bearer t0k3n")
                       (AFun 3) (AVal VUndefined) eq_refl) eq_refl)
      as [f [E [_ Hq]]].
    exists f. split; [exact E | exact Hq].
  - destruct (proj2 (getAliases_dispatch (Sample.spy (Settles Pending))
                       Sample.client (defaults "Bearer t0k3n")
                       (AVal (VStr "")) (AFun 4) eq_refl) eq_refl)
      as [s [E [_ Hq]]].
    exists s. split; [exact E | exact Hq].
Defined.

(** X15: a first argument of [getCertificates] or [getAliases] that is
    neither a function nor a string is ignored: the call is the call with
    that argument left out, the request for the whole list. *)
Theorem other_first_argument_is_ignored
    (w : world) (this : instance) (a callback : arg) :
  typeof_arg a <> "function" ->
  typeof_arg a <> "string" ->
  getCertificates w this a callback
  = handleRequest w this (config2 "/now/certs" "get") callback
                  (Some "certs")
  /\ getAliases w this a callback
     = handleRequest w this (config2 "/now/aliases" "get") callback
                     (Some "aliases")
  /\ getCertificates w this a callback
     = getCertificates w this (AVal VUndefined) callback
  /\ getAliases w this a callback
     = getAliases w this (AVal VUndefined) callback.
Proof.
  intros Hf Hs. unfold getCertificates, getAliases.
  destruct a as [[]|]; simpl in *; try (exfalso; auto; fail); auto.
Qed.

Lemma other_first_argument_is_ignored_witness :
  getAliases (Sample.spy (Settles Pending)) Sample.client
             (AVal (VNum 42)) (AFun 1)
  = getAliases (Sample.spy (Settles Pending)) Sample.client
               (AVal VUndefined) (AFun 1).
Proof.
  apply (other_first_argument_is_ignored (Sample.spy (Settles Pending))
           Sample.client (AVal (VNum 42)) (AFun 1)); discriminate.
Defined.

(** X16: the three methods on the records of a domain check no argument
    for presence: whatever [domain] is, [undefined] included, its string
    form goes into the path and the one request is made.  The record of
    [addDomainRecord] travels under the key [data] of the request, which
    has no [body]. *)
Theorem domain_records_check_nothing
    (w : world) (this : instance) (opts : options)
    (domain other : value) (callback : arg) (s : string) :
  request this = Some opts ->
  to_string domain = Some s ->
  requests (snd (getDomainRecords w this domain callback))
  = [ERequest opts (config2 ("/domains/" ++ s ++ "/records") "get")]
  /\ (exists c,
        requests (snd (addDomainRecord w this domain other callback))
        = [ERequest opts c]
        /\ field c "url" = VStr ("/domains/" ++ s ++ "/records")
        /\ field c "method" = VStr "post"
        /\ field c "data" = other
        /\ has_property c "body" = false)
  /\ (forall r,
        to_string other = Some r ->
        requests (snd (deleteDomainRecord w this domain other callback))
        = [ERequest opts
             (config2 ("/domains/" ++ s ++ "/records/" ++ r) "delete")]).
Proof.
  intros Hr Hs. split; [|split].
  - unfold getDomainRecords. rewrite (template_string _ _ _ _ Hs).
    apply handleRequest_one_request, Hr.
  - unfold addDomainRecord. rewrite (template_string _ _ _ _ Hs).
    eexists. split; [apply handleRequest_one_request, Hr|].
    repeat split.
  - intros r Ho. unfold deleteDomainRecord.
    rewrite (template_string _ _ _ _ Hs). cbn [bind].
    rewrite (template_string _ _ _ _ Ho). cbn [bind sync].
    rewrite (handleRequest_one_request w this opts); trivial.
    simpl. rewrite append_empty, append_assoc. reflexivity.
Qed.

Lemma domain_records_check_nothing_witness :
  requests (snd (getDomainRecords (Sample.spy (Settles Pending))
                   Sample.client VUndefined (AFun 1)))
  = [ERequest (defaults "Bearer t0k3n")
       (config2 "/domains/undefined/records" "get")].
Proof.
  apply (domain_records_check_nothing (Sample.spy (Settles Pending))
           Sample.client (defaults "Bearer t0k3n") VUndefined VUndefined
           (AFun 1) "undefined"); reflexivity.
Defined.

(** ** The requests the guarded methods make *)

Section Wire.

Variable w : world.
Variable this : instance.
Variable opts : options.
Hypothesis has_transport : request this = Some opts.

Lemma single_request (config : value) (callback : arg)
    (selector : option string) :
  requests (snd (handleRequest w this config callback selector))
  = [ERequest opts config].
Proof. apply handleRequest_one_request, has_transport. Qed.

End Wire.

(** X17: an identifier that is present goes into the path as its string
    form, unescaped, and the method makes exactly that one request:
    [getDeployment], [deleteDeployment], [getFiles], [getFile],
    [createAlias], [deleteAlias], [renameSecret] and [deleteSecret]. *)
Theorem identifiers_go_into_the_path
    (w : world) (this : instance) (opts : options) (callback : arg)
    (id : value) (s : string) :
  request this = Some opts ->
  truthy id = true ->
  to_string id = Some s ->
  requests (snd (getDeployment w this id callback))
  = [ERequest opts (config2 ("/now/deployments/" ++ s) "get")]
  /\ requests (snd (deleteDeployment w this id callback))
     = [ERequest opts (config2 ("/now/deployments/" ++ s) "delete")]
  /\ requests (snd (getFiles w this id callback))
     = [ERequest opts (config2 ("/now/deployments/" ++ s ++ "/files") "get")]
  /\ requests (snd (deleteAlias w this id callback))
     = [ERequest opts (config2 ("/now/aliases/" ++ s) "delete")]
  /\ requests (snd (deleteSecret w this id callback))
     = [ERequest opts (config2 ("/now/secrets/" ++ s) "delete")]
  /\ (forall fileId f,
        truthy fileId = true ->
        to_string fileId = Some f ->
        requests (snd (getFile w this id fileId callback))
        = [ERequest opts
             (config2 ("/now/deployments/" ++ s ++ "/files/" ++ f) "get")])
  /\ (forall alias,
        truthy alias = true ->
        requests (snd (createAlias w this id alias callback))
        = [ERequest opts
             (config3 ("/now/deployments/" ++ s ++ "/aliases") "post"
                      (VObj [("alias", alias)]))])
  /\ (forall name,
        truthy name = true ->
        requests (snd (renameSecret w this id name callback))
        = [ERequest opts
             (config3 ("/now/secrets/" ++ s) "patch"
                      (VObj [("name", name)]))]).
Proof.
  intros Hr Hi Hs.
  unfold getDeployment, deleteDeployment, getFiles, deleteAlias,
    deleteSecret, getFile, createAlias, renameSecret.
  rewrite Hi. cbn [negb].
  rewrite !(template_string _ _ _ _ Hs). cbn [bind sync].
  rewrite !(single_request w this opts Hr). simpl. rewrite !append_empty.
  repeat (split; [reflexivity|]).
  split; [|split].
  - intros fileId f Hf Ho. rewrite Hf. cbn [negb].
    rewrite (template_string _ _ _ _ Ho). cbn [bind sync].
    rewrite (single_request w this opts Hr). simpl.
    rewrite append_empty, append_assoc. reflexivity.
  - intros alias Ha. rewrite Ha. apply (single_request w this opts Hr).
  - intros name Hn. rewrite Hn. apply (single_request w this opts Hr).
Qed.

Lemma identifiers_go_into_the_path_witness :
  requests (snd (getFiles (Sample.spy (Settles Pending)) Sample.client
                   (VStr "../x?y") (AFun 1)))
  = [ERequest (defaults "Bearer t0k3n")
       (config2 "/now/deployments/../x?y/files" "get")]
  /\ requests (snd (getFile (Sample.spy (Settles Pending)) Sample.client
                      (VNum 5) (VArr [VNum 1; VNum 2]) (AFun 1)))
     = [ERequest (defaults "Bearer t0k3n")
          (config2 "/now/deployments/5/files/1,2" "get")].
Proof.
  split.
  - apply (identifiers_go_into_the_path (Sample.spy (Settles Pending))
             Sample.client (defaults "Bearer t0k3n") (AFun 1)
             (VStr "../x?y") "../x?y"); reflexivity.
  - apply (identifiers_go_into_the_path (Sample.spy (Settles Pending))
             Sample.client (defaults "Bearer t0k3n") (AFun 1)
             (VNum 5) "5" eq_refl eq_refl eq_refl); reflexivity.
Defined.

(** X18: a payload that is present is sent as it is: [createDeployment]
    sends its [body], [createSecret] the [name] and [value] it is given;
    [addDomain] sends the [name] of its [domain] and, as [isExternal],
    what the domain has under [isExternalDNS], and nothing else of it. *)
Theorem payloads_are_sent_as_given
    (w : world) (this : instance) (opts : options) (callback : arg) :
  request this = Some opts ->
  (forall body,
     truthy body = true ->
     requests (snd (createDeployment w this body callback))
     = [ERequest opts (config3 "/now/deployments" "post" body)])
  /\ (forall name value,
        truthy name = true ->
        truthy value = true ->
        requests (snd (createSecret w this name value callback))
        = [ERequest opts
             (config3 "/now/secrets" "post"
                      (VObj [("name", name); ("value", value)]))])
  /\ (forall domain n,
        nullish domain = false ->
        field domain "name" = VStr n ->
        requests (snd (addDomain w this domain callback))
        = [ERequest opts
             (config3 "/domains" "post"
                (VObj [("name", VStr n);
                       ("isExternal", field domain "isExternalDNS")]))]).
Proof.
  intros Hr. split; [|split].
  - intros body Hb. unfold createDeployment. rewrite Hb.
    apply (single_request w this opts Hr).
  - intros name value Hn Hv. unfold createSecret. rewrite Hn, Hv.
    apply (single_request w this opts Hr).
  - intros domain n Hd Hn. unfold addDomain.
    rewrite !(get_field domain _ Hd), Hn. cbn [bind sync typeof].
    apply (single_request w this opts Hr).
Qed.

Lemma payloads_are_sent_as_given_witness :
  requests (snd (addDomain (Sample.spy (Settles Pending)) Sample.client
                   (VObj [("name", VStr "zeit.co");
                          ("isExternalDNS", VBool true);
                          ("ttl", VNum 60)])
                   (AFun 1)))
  = [ERequest (defaults "Bearer t0k3n")
       (config3 "/domains" "post"
          (VObj [("name", VStr "zeit.co"); ("isExternal", VBool true)]))].
Proof.
  apply (proj2 (proj2 (payloads_are_sent_as_given
                         (Sample.spy (Settles Pending)) Sample.client
                         (defaults "Bearer t0k3n") (AFun 1) eq_refl))
           (VObj [("name", VStr "zeit.co"); ("isExternalDNS", VBool true);
                  ("ttl", VNum 60)])
           "zeit.co"); reflexivity.
Defined.

(** X19: a guarded method called with a required parameter absent tells
    a callback that is a function exactly once, with the fixed pair as the
    error and no data; nothing else happens. *)
Theorem missing_parameter_is_told_to_the_callback
    (w : world) (this : instance) (c : guarded) (f : nat) (k : error_kind) :
  first_missing (required_parameters c) = Some k ->
  snd (invoke w this c (AFun f)) = [ECallback f (ERROR k) VUndefined]
  /\ forall v, snd (invoke w this c (AVal v)) = [].
Proof.
  intros H.
  destruct c; simpl in H; unfold invoke,
    getDeployment, deleteDeployment, getFiles, getFile, createDeployment,
    createAlias, deleteAlias, createSecret, renameSecret, deleteSecret;
  repeat match type of H with
         | context [truthy ?x] => destruct (truthy x); simpl in H |- *
         end;
  try discriminate; inversion H; subst; unfold handleError; simpl;
  split; reflexivity.
Qed.

Lemma missing_parameter_is_told_to_the_callback_witness :
  snd (invoke (Sample.rude (Settles Pending)) Sample.client
         (CreateSecret (VStr "name") (VStr "")) (AFun 6))
  = [ECallback 6 (ERROR MISSING_VALUE) VUndefined].
Proof.
  apply (missing_parameter_is_told_to_the_callback
           (Sample.rude (Settles Pending)) Sample.client
           (CreateSecret (VStr "name") (VStr "")) 6 MISSING_VALUE).
  reflexivity.
Defined.

(** ** Further properties of construction *)

(** X20: an argument that is present but falsy ([null], the empty
    string, [0], [false]) is not replaced: neither the variable nor the
    file is looked at, the error is logged and no client is left. *)
Theorem falsy_argument_is_not_replaced
    (m : call_mode) (a : value) (h : host) :
  present a = true ->
  truthy a = false ->
  Now m a h = (Ok (nothing_usable m), [EError no_token]).
Proof.
  intros Hp Ht. rewrite Now_unfold.
  destruct a; try discriminate; simpl in *; rewrite ?Ht; reflexivity.
Qed.

Lemma falsy_argument_is_not_replaced_witness :
  Now WithNew (VStr "") Sample.env_host
  = (Ok (Instance bare), [EError no_token])
  /\ Now Plain VNull Sample.env_host = (Ok NoInstance, [EError no_token]).
Proof.
  split.
  - apply (falsy_argument_is_not_replaced WithNew (VStr "") Sample.env_host);
      reflexivity.
  - apply (falsy_argument_is_not_replaced Plain VNull Sample.env_host);
      reflexivity.
Defined.

(** X21: [Now] raises exactly when a token is found that has no string
    form to put after [Bearer]; what it raises is the [TypeError] of the
    conversion.  A token that is a string, a number or a boolean never
    makes it raise. *)
Theorem Now_raises_only_on_unprintable_token
    (m : call_mode) (a : value) (h : host) :
  (forall e,
     fst (Now m a h) = Throw e ->
     e = not_a_string
     /\ truthy (precedence a h) = true
     /\ to_string (precedence a h) = None)
  /\ (truthy (precedence a h) = true ->
      to_string (precedence a h) = None ->
      fst (Now m a h) = Throw not_a_string).
Proof.
  rewrite Now_unfold.
  destruct (token_param_precedence a h) as [tok [t [E [Ht Hv]]]].
  rewrite E. split.
  - intros e He. destruct (truthy tok) eqn:Htok; simpl in He;
      [|discriminate].
    rewrite <- (Hv eq_refl). unfold configure, template in He.
    destruct (to_string tok); simpl in He; [discriminate|].
    inversion He. auto.
  - intros Hp Hs. rewrite Ht, Hp. simpl.
    rewrite Hp in Ht. rewrite (Hv Ht).
    unfold configure, template. rewrite Hs. reflexivity.
Qed.

Lemma Now_raises_only_on_unprintable_token_witness :
  fst (Now Plain (VObj [("toString", VBool false)]) Sample.empty_host)
  = Throw not_a_string.
Proof.
  apply (proj2 (Now_raises_only_on_unprintable_token
                  Plain (VObj [("toString", VBool false)])
                  Sample.empty_host)); reflexivity.
Defined.

(** X22: an instance [Now] leaves is either the fresh object of a [new]
    without token, with no field set, or fully configured: it holds the
    token that was resolved, and a transport whose [Authorization] header
    is [Bearer] followed by the string form of that token.  [undefined]
    is returned only by a plain call that finds no token. *)
Theorem instance_is_bare_or_configured
    (m : call_mode) (a : value) (h : host) (c : constructed) :
  fst (Now m a h) = Ok c ->
  (truthy (precedence a h) = false /\ c = nothing_usable m)
  \/ exists auth,
       truthy (precedence a h) = true
       /\ to_string (precedence a h) = Some auth
       /\ c = Instance
                {| token := Some (precedence a h);
                   request := Some (defaults ("Bearer " ++ auth)) |}.
Proof.
  intros H. rewrite Now_unfold in H.
  destruct (token_param_precedence a h) as [tok [t [E [Ht Hv]]]].
  rewrite E in H. destruct (truthy tok) eqn:Htok; simpl in H.
  - right. rewrite <- (Hv eq_refl). unfold configure, template in H.
    destruct (to_string tok) as [auth|]; simpl in H; [|discriminate].
    exists auth. rewrite append_empty in H. inversion H. auto.
  - left. inversion H. auto.
Qed.

Lemma instance_is_bare_or_configured_witness :
  (truthy (precedence VUndefined Sample.file_host) = false
   /\ Instance {| token := Some (VStr "from-file");
                  request := Some (defaults "Bearer from-file") |}
      = nothing_usable WithNew)
  \/ exists auth,
       truthy (precedence VUndefined Sample.file_host) = true
       /\ to_string (precedence VUndefined Sample.file_host) = Some auth
       /\ Instance {| token := Some (VStr "from-file");
                      request := Some (defaults "Bearer from-file") |}
          = Instance
              {| token := Some (precedence VUndefined Sample.file_host);
                 request := Some (defaults ("Bearer " ++ auth)) |}.
Proof.
  apply (instance_is_bare_or_configured WithNew VUndefined Sample.file_host).
  reflexivity.
Defined.

(** X23: when the variable yields nothing, [_getToken] turns to the
    file.  A file that cannot be loaded, or whose content is [null], is
    logged in one line and the value of the variable, [undefined] or the
    empty string, is returned as it was; any other content gives what it
    has under [token], whatever that is, with nothing logged. *)
Theorem getToken_logs_a_failed_file (h : host) :
  truthy (env_token h) = false ->
  (forall n msg,
     now_json h = Failed n msg ->
     _getToken h
     = (Ok (env_token h),
        [EEnv "NOW_TOKEN"; ERequire configPath;
         EError ("Error: " ++ error_string n msg)]))
  /\ (forall md,
        now_json h = Loaded md ->
        nullish md = true ->
        exists line,
          _getToken h
          = (Ok (env_token h),
             [EEnv "NOW_TOKEN"; ERequire configPath; EError line]))
  /\ (forall md,
        now_json h = Loaded md ->
        nullish md = false ->
        _getToken h
        = (Ok (field md "token"), [EEnv "NOW_TOKEN"; ERequire configPath])).
Proof.
  intros He. unfold _getToken. fold (env_token h). rewrite He. cbn [negb].
  split; [|split].
  - intros n msg ->. unfold template. simpl. rewrite append_empty.
    reflexivity.
  - intros md -> Hn. destruct md; try discriminate; simpl; eauto.
  - intros md -> Hn. rewrite (get_field md "token" Hn). reflexivity.
Qed.

Lemma getToken_logs_a_failed_file_witness :
  _getToken Sample.empty_host
  = (Ok VUndefined,
     [EEnv "NOW_TOKEN"; ERequire configPath;
      EError "Error: Error: Cannot find module '~/.now.json'"])
  /\ _getToken Sample.file_host
     = (Ok (VStr "from-file"), [EEnv "NOW_TOKEN"; ERequire configPath]).
Proof.
  split.
  - apply (proj1 (getToken_logs_a_failed_file Sample.empty_host eq_refl)
             "Error" "Cannot find module '~/.now.json'" eq_refl).
  - apply (proj2 (proj2 (getToken_logs_a_failed_file Sample.file_host
                           eq_refl))
             (VObj [("token", VStr "from-file")]) eq_refl eq_refl).
Defined.

(** X24: the messages of the seven fixed pairs are pairwise distinct, so
    the message tells a missing [alias] from a missing [body] where the
    code does not; and every pair is a truthy object of exactly a [code]
    and a [message], both strings. *)
Theorem messages_tell_the_kinds_apart :
  NoDup (map (fun k => message_of (ERROR k))
             [MISSING_ID; MISSING_FILE_ID; MISSING_BODY; MISSING_CN;
              MISSING_ALIAS; MISSING_NAME; MISSING_VALUE])
  /\ forall k,
       truthy (ERROR k) = true
       /\ exists c m,
            ERROR k = VObj [("code", VStr c); ("message", VStr m)].
Proof.
  split.
  - repeat constructor; simpl; intuition discriminate.
  - intros k. split; [destruct k; reflexivity|].
    destruct k; do 2 eexists; reflexivity.
Qed.

(** X25: the three methods that list without an argument make one [get]
    request to a fixed path and resolve with the one field of the body
    that carries the list: [deployments] of [/now/deployments], [domains]
    of [/domains], [secrets] of [/now/secrets]. *)
Theorem list_methods_unwrap
    (w : world) (this : instance) (opts : options) (callback : arg) :
  request this = Some opts ->
  (requests (snd (getDeployments w this callback))
   = [ERequest opts (config2 "/now/deployments" "get")]
   /\ forall res,
        transport w opts (config2 "/now/deployments" "get")
        = Settles (Fulfilled res) ->
        nullish res = false ->
        fst (getDeployments w this callback)
        = Ok (Fulfilled (field res "deployments")))
  /\ (requests (snd (getDomains w this callback))
      = [ERequest opts (config2 "/domains" "get")]
      /\ forall res,
           transport w opts (config2 "/domains" "get")
           = Settles (Fulfilled res) ->
           nullish res = false ->
           fst (getDomains w this callback)
           = Ok (Fulfilled (field res "domains")))
  /\ (requests (snd (getSecrets w this callback))
      = [ERequest opts (config2 "/now/secrets" "get")]
      /\ forall res,
           transport w opts (config2 "/now/secrets" "get")
           = Settles (Fulfilled res) ->
           nullish res = false ->
           fst (getSecrets w this callback)
           = Ok (Fulfilled (field res "secrets"))).
Proof.
  intros Hr. unfold getDeployments, getDomains, getSecrets.
  repeat split; try apply (single_request w this opts Hr);
    intros res Ht Hn; eapply fulfilled_with; eauto; apply get_field, Hn.
Qed.

Lemma list_methods_unwrap_witness :
  fst (getSecrets
         (Sample.spy
            (Settles (Fulfilled (VObj [("secrets", VArr [VStr "s1"]);
                                       ("count", VNum 1)]))))
         Sample.client (AVal VUndefined))
  = Ok (Fulfilled (VArr [VStr "s1"])).
Proof.
  apply (proj2 (proj2 (proj2 (list_methods_unwrap
                  (Sample.spy
                     (Settles (Fulfilled (VObj [("secrets", VArr [VStr "s1"]);
                                                ("count", VNum 1)]))))
                  Sample.client (defaults "Bearer t0k3n") (AVal VUndefined)
                  eq_refl)))
           (VObj [("secrets", VArr [VStr "s1"]); ("count", VNum 1)]));
    reflexivity.
Defined.
